(** * TkZero: key-bind strings and the list box wrapper

    A shallow embedding of [TkZero/Keybind.py] and [TkZero/Listbox.py].

    Python values are an inductive type [pyval]; a function that can
    raise returns [result A], the sum of the exception raised and the
    value returned.  Strings are Stdlib strings: a character of the
    model is a code point below 256, the Latin-1 part of Unicode, and a
    str of the model is a Python str of such code points. *)

From Stdlib Require Import Bool List ZArith Lia Ascii String.
From Stdlib Require Import Numbers.DecimalString.
Import ListNotations.

Set Warnings "-register-all".

Open Scope string_scope.
Open Scope Z_scope.

(** ** Python values and exceptions *)

(** The windowing systems [tk windowingsystem] answers with; the
    docstrings of [Keybind.py] name win32 and x11 beside macOS. *)
Inductive windowingsystem := aqua | win32 | x11.

(** A Tk widget as far as the wrappers look at it: the qualified name of
    its class, its Tk path name and the windowing system it lives on. *)
Record widget := mk_widget {
  w_class : string;
  w_path : string;
  w_windowingsystem : windowingsystem
}.

(** [PyWidget] stands for every instance of [tk.Widget], [tk.Tk] or
    [tk.Toplevel]; [PyObject cls s r] for an object of any other
    class, with the qualified name of the class and what [str()] and
    [repr()] make of the object. *)
Inductive pyval :=
| PyNone
| PyBool (b : bool)
| PyInt (z : Z)
| PyStr (s : string)
| PyList (l : list pyval)
| PyTuple (l : list pyval)
| PyWidget (w : widget)
| PyObject (cls str_ repr_ : string).

Inductive exn :=
| TypeError (msg : string)
| ValueError (msg : string)
| IndexError (msg : string)
| TclError (msg : string).

Definition result (A : Type) : Type := (exn + A)%type.

Definition ret {A} (a : A) : result A := inr a.
Definition raise {A} (e : exn) : result A := inl e.
Definition bind {A B} (m : result A) (k : A -> result B) : result B :=
  match m with
  | inl e => inl e
  | inr a => k a
  end.

Notation "x <- m ;; k" := (bind m (fun x => k))
  (at level 61, m at next level, right associativity).
Notation "m ;;; k" := (bind m (fun _ => k))
  (at level 61, right associativity).

(** [if cond: raise e]. *)
Definition raise_if (cond : bool) (e : exn) : result unit :=
  if cond then raise e else ret tt.

(** ** The string builtins the code calls *)

(** The case of an ASCII letter changed. *)
Definition is_lower_ascii (c : ascii) : bool :=
  ((97 <=? nat_of_ascii c) && (nat_of_ascii c <=? 122))%nat.
Definition is_upper_ascii (c : ascii) : bool :=
  ((65 <=? nat_of_ascii c) && (nat_of_ascii c <=? 90))%nat.

Definition upper_ascii (c : ascii) : ascii :=
  if is_lower_ascii c then ascii_of_nat (nat_of_ascii c - 32) else c.
Definition lower_ascii (c : ascii) : ascii :=
  if is_upper_ascii c then ascii_of_nat (nat_of_ascii c + 32) else c.

(** The cased letters below 256, by code point: a to z and, past ASCII,
    U+00E0 to U+00FE without the division sign U+00F7 are lower case;
    A to Z and U+00C0 to U+00DE without the multiplication sign U+00D7
    are upper case, each 32 below its lower-case letter. *)
Definition is_lower_latin1 (n : nat) : bool :=
  (((97 <=? n) && (n <=? 122))
   || ((224 <=? n) && (n <=? 254) && negb (n =? 247)))%nat.
Definition is_upper_latin1 (n : nat) : bool :=
  (((65 <=? n) && (n <=? 90))
   || ((192 <=? n) && (n <=? 222) && negb (n =? 215)))%nat.

(** [c.upper()] of one character: the sharp s U+00DF becomes "SS", a
    lower-case letter its upper-case letter, and the rest stays.  The
    upper case of the micro sign U+00B5 and of y with diaeresis U+00FF
    is beyond U+00FF (U+039C and U+0178): the model has no character
    for it and leaves the two as they are, and no statement about case
    speaks of them. *)
Definition upper_char (c : ascii) : string :=
  let n := nat_of_ascii c in
  if (n =? 223)%nat then "SS"
  else if is_lower_latin1 n
  then String (ascii_of_nat (n - 32)) EmptyString
  else String c EmptyString.

(** [c.lower()] of one character. *)
Definition lower_char (c : ascii) : ascii :=
  let n := nat_of_ascii c in
  if is_upper_latin1 n then ascii_of_nat (n + 32) else c.

(** [s.upper()] and [s.lower()]. *)
Fixpoint upper (s : string) : string :=
  match s with
  | EmptyString => EmptyString
  | String c s' => upper_char c ++ upper s'
  end.
Fixpoint lower (s : string) : string :=
  match s with
  | EmptyString => EmptyString
  | String c s' => String (lower_char c) (lower s')
  end.

(** [sub in s]. *)
Fixpoint str_in (sub s : string) : bool :=
  prefix sub s ||
  match s with
  | EmptyString => false
  | String _ s' => str_in sub s'
  end.

(** [s.replace(old, new)]: the occurrences of [old] are taken from the
    left and do not overlap; [skip] counts the characters of an
    occurrence still to be dropped.  For an empty [old] Python puts
    [new] before every character and at the end. *)
Fixpoint replace_from (old new s : string) (skip : nat) : string :=
  match s with
  | EmptyString => EmptyString
  | String c s' =>
      match skip with
      | S k => replace_from old new s' k
      | O =>
          if prefix old s
          then new ++ replace_from old new s' (String.length old - 1)
          else String c (replace_from old new s' 0)
      end
  end.

Fixpoint intersperse (new s : string) : string :=
  match s with
  | EmptyString => new
  | String c s' => new ++ String c (intersperse new s')
  end.

Definition replace (old new s : string) : string :=
  match old with
  | EmptyString => intersperse new s
  | _ => replace_from old new s 0
  end.

(** [s[0]]: a one-character string, or IndexError on the empty one. *)
Definition getitem0 (s : string) : result string :=
  match s with
  | EmptyString => raise (IndexError "string index out of range")
  | String c _ => ret (String c EmptyString)
  end.

(** [repr(type(v))]. *)
Definition type_repr (v : pyval) : string :=
  "<class '" ++
  match v with
  | PyNone => "NoneType"
  | PyBool _ => "bool"
  | PyInt _ => "int"
  | PyStr _ => "str"
  | PyList _ => "list"
  | PyTuple _ => "tuple"
  | PyWidget w => w_class w
  | PyObject cls _ _ => cls
  end ++ "'>".

(** ** str() and repr() *)

Definition dquote : ascii := ascii_of_nat 34.
Definition squote : ascii := ascii_of_nat 39.
Definition backslash : ascii := ascii_of_nat 92.

Definition hex_digit (n : nat) : ascii :=
  ascii_of_nat (if (n <? 10)%nat then 48 + n else 87 + n).

(** A character [repr] writes as an escape: the control characters and
    the separators of Latin-1 that do not print. *)
Definition unprintable (n : nat) : bool :=
  ((n <? 32) || ((127 <=? n) && (n <=? 160)) || (n =? 173))%nat.

Definition repr_char (quote c : ascii) : string :=
  let n := nat_of_ascii c in
  if Ascii.eqb c backslash then String backslash (String backslash EmptyString)
  else if Ascii.eqb c quote then String backslash (String quote EmptyString)
  else if (n =? 10)%nat then String backslash "n"
  else if (n =? 13)%nat then String backslash "r"
  else if (n =? 9)%nat then String backslash "t"
  else if unprintable n
  then String backslash
         (String "x" (String (hex_digit (n / 16))
                        (String (hex_digit (n mod 16)) EmptyString)))
  else String c EmptyString.

Fixpoint repr_chars (quote : ascii) (s : string) : string :=
  match s with
  | EmptyString => EmptyString
  | String c s' => repr_char quote c ++ repr_chars quote s'
  end.

(** [repr] of a str: in single quotes, or in double quotes when the
    string has a single quote and no double one. *)
Definition repr_str (s : string) : string :=
  let quote :=
    if str_in (String squote EmptyString) s
       && negb (str_in (String dquote EmptyString) s)
    then dquote else squote in
  String quote (repr_chars quote s ++ String quote EmptyString).

(** [str(z)] of an int. *)
Definition str_int (z : Z) : string := NilZero.string_of_int (Z.to_int z).

Fixpoint py_repr (v : pyval) : string :=
  match v with
  | PyNone => "None"
  | PyBool b => if b then "True" else "False"
  | PyInt z => str_int z
  | PyStr s => repr_str s
  | PyList l => "[" ++ String.concat ", " (map py_repr l) ++ "]"
  | PyTuple l =>
      match l with
      | [x] => "(" ++ py_repr x ++ ",)"
      | _ => "(" ++ String.concat ", " (map py_repr l) ++ ")"
      end
  | PyWidget w => "<" ++ w_class w ++ " object " ++ w_path w ++ ">"
  | PyObject _ _ repr_ => repr_
  end.

Definition py_str (v : pyval) : string :=
  match v with
  | PyStr s => s
  | PyWidget w => w_path w
  | PyObject _ str_ _ => str_
  | _ => py_repr v
  end.

(** The number an int (or a bool, which is one) stands for. *)
Definition int_value (v : pyval) : Z :=
  match v with
  | PyInt z => z
  | PyBool b => if b then 1 else 0
  | _ => 0
  end.

(** The characters of a str. *)
Definition str_value (v : pyval) : string :=
  match v with
  | PyStr s => s
  | _ => EmptyString
  end.

(** ** isinstance *)

Definition isinstance_widget (v : pyval) : bool :=
  match v with PyWidget _ => true | _ => false end.
Definition isinstance_bool (v : pyval) : bool :=
  match v with PyBool _ => true | _ => false end.
(** [bool] is a subclass of [int]. *)
Definition isinstance_int (v : pyval) : bool :=
  match v with PyInt _ | PyBool _ => true | _ => false end.
Definition isinstance_str (v : pyval) : bool :=
  match v with PyStr _ => true | _ => false end.
Definition isinstance_list (v : pyval) : bool :=
  match v with PyList _ => true | _ => false end.
Definition isinstance_tuple (v : pyval) : bool :=
  match v with PyTuple _ => true | _ => false end.
Definition is_None (v : pyval) : bool :=
  match v with PyNone => true | _ => false end.

(** The truth value of [v] in an [if]. *)
Definition truthy (v : pyval) : bool :=
  match v with
  | PyNone => false
  | PyBool b => b
  | PyInt z => negb (z =? 0)
  | PyStr s => negb (String.eqb s EmptyString)
  | PyList l | PyTuple l => match l with [] => false | _ => true end
  | PyWidget _ | PyObject _ _ _ => true
  end.

(** ** Platform *)

(** Modelled from the spec: [TkZero/Platform.py] is not among the
    sources.  [Platform.on_aqua(widget)] tells whether the widget lives
    on Aqua, the windowing system of macOS. *)
Definition on_aqua (v : pyval) : bool :=
  match v with
  | PyWidget w =>
      match w_windowingsystem w with aqua => true | _ => false end
  | _ => false
  end.

(** ** Keybind.py *)

Module Keybind.

Definition generate_event_sequence
    (widget ctrl_cmd ctrl_ctrl shift_shift alt_option letter : pyval)
    : result string :=
  raise_if (negb (isinstance_widget widget))
    (TypeError ("widget is not a Union[tk.Widget, Union[tk.Tk, tk.Toplevel]]! "
                ++ "(type passed in: " ++ type_repr widget ++ ")")) ;;;
  raise_if (negb (isinstance_bool ctrl_cmd))
    (TypeError ("ctrl_cmd is not a bool! (type passed in: "
                ++ type_repr ctrl_cmd ++ ")")) ;;;
  raise_if (negb (isinstance_bool ctrl_ctrl))
    (TypeError ("ctrl_ctrl is not a bool! " ++ "(type passed in: "
                ++ type_repr ctrl_ctrl ++ ")")) ;;;
  raise_if (negb (isinstance_bool shift_shift))
    (TypeError ("shift_shift is not a bool! " ++ "(type passed in: "
                ++ type_repr shift_shift ++ ")")) ;;;
  raise_if (negb (isinstance_bool alt_option))
    (TypeError ("alt_option is not a bool! " ++ "(type passed in: "
                ++ type_repr alt_option ++ ")")) ;;;
  raise_if (negb (isinstance_str letter))
    (TypeError ("letter is not a str! (type passed in: "
                ++ type_repr letter ++ ")")) ;;;
  let sequence := "<" in
  let sequence :=
    if on_aqua widget then
      let sequence :=
        if truthy ctrl_cmd then sequence ++ "Command-" else sequence in
      if truthy alt_option then sequence ++ "Option-" else sequence
    else
      let sequence :=
        if truthy ctrl_cmd then sequence ++ "Control-" else sequence in
      if truthy alt_option then sequence ++ "Alt-" else sequence in
  let sequence :=
    if truthy ctrl_ctrl && negb (str_in "Control-" sequence)
    then sequence ++ "Control-" else sequence in
  let sequence :=
    if truthy shift_shift then sequence ++ "Shift-" else sequence in
  letter0 <- getitem0 (str_value letter) ;;
  let sequence :=
    sequence ++
    (if truthy shift_shift then upper letter0 else lower letter0) in
  let sequence := sequence ++ ">" in
  ret sequence.

Definition generate_accelerator_sequence
    (widget ctrl_cmd ctrl_ctrl shift_shift alt_option letter : pyval)
    : result string :=
  raise_if (negb (isinstance_widget widget))
    (TypeError ("widget is not a Union[tk.Widget, Union[tk.Tk, tk.Toplevel]]! "
                ++ "(type passed in: " ++ type_repr widget ++ ")")) ;;;
  raise_if (negb (isinstance_bool ctrl_cmd))
    (TypeError ("ctrl_cmd is not a bool! (type passed in: "
                ++ type_repr ctrl_cmd ++ ")")) ;;;
  raise_if (negb (isinstance_bool ctrl_ctrl))
    (TypeError ("ctrl_ctrl is not a bool! " ++ "(type passed in: "
                ++ type_repr ctrl_ctrl ++ ")")) ;;;
  raise_if (negb (isinstance_bool shift_shift))
    (TypeError ("shift_shift is not a bool! " ++ "(type passed in: "
                ++ type_repr shift_shift ++ ")")) ;;;
  raise_if (negb (isinstance_bool alt_option))
    (TypeError ("alt_option is not a bool! " ++ "(type passed in: "
                ++ type_repr alt_option ++ ")")) ;;;
  raise_if (negb (isinstance_str letter))
    (TypeError ("letter is not a str! (type passed in: "
                ++ type_repr letter ++ ")")) ;;;
  let sequence := EmptyString in
  let sequence :=
    if truthy ctrl_cmd
    then sequence ++ (if on_aqua widget then "Command-" else "Control-")
    else sequence in
  sequence <-
    (if truthy ctrl_ctrl then
       if str_in "Control-" sequence
       then raise (ValueError ("ctrl_cmd and ctrl_ctrl is True and "
                               ++ "we are not on Aqua!"))
       else ret (sequence ++ "Control-")
     else ret sequence) ;;
  let sequence :=
    if truthy shift_shift then sequence ++ "Shift-" else sequence in
  let sequence :=
    if truthy alt_option
    then sequence ++ (if on_aqua widget then "Option-" else "Alt-")
    else sequence in
  letter0 <- getitem0 (str_value letter) ;;
  let sequence := sequence ++ upper letter0 in
  let sequence :=
    if negb (on_aqua widget) then replace "-" "+" sequence else sequence in
  ret sequence.

End Keybind.


(** ** The toolkit's list box

    What [tk.Listbox] does with the calls the wrapper makes, after the
    Tk manual.  The elements are the value of the list variable.  A
    disabled list box keeps its selection: the manual says of the state
    option that then "selection cannot be modified and is not shown
    (though selection information is retained)".  The view is not
    modelled; every call made on the widget is recorded in [calls]. *)

Module Tk.

(** [tk.NORMAL] and [tk.DISABLED]. *)
Inductive state := NORMAL | DISABLED.

(** [tk.END], [tk.BROWSE] and [tk.EXTENDED]. *)
Definition END : pyval := PyStr "end".
Definition BROWSE : pyval := PyStr "browse".
Definition EXTENDED : pyval := PyStr "extended".

Inductive call :=
| call_bind (sequence : string) (func : pyval)
| call_selection_clear (first last : pyval)
| call_selection_set (first : pyval)
| call_see (index : pyval)
| call_config_state (s : state).

Record listbox := mk_listbox {
  master : pyval;
  height : Z;
  width : Z;
  selectmode : string;
  state_ : state;
  listvariable : list string;
  selection : list Z;
  bindings : list (string * pyval);
  calls : list call
}.

Definition size (t : listbox) : Z := Z.of_nat (List.length (listvariable t)).

Definition quoted (s : string) : string :=
  String dquote (s ++ String dquote EmptyString).

(** An integer option.  Tk reads the value as a Tcl integer; the model
    reads Python ints and raises TclError for the rest. *)
Definition getint (v : pyval) : result Z :=
  if isinstance_int v then ret (int_value v)
  else raise (TclError ("expected integer but got " ++ quoted (py_str v))).

(** An index of a selection or view command: a number, or [end] for the
    last element.  The other forms of Tk (active, anchor, @x,y) need the
    view and are not modelled: the model raises TclError for them, as Tk
    does for an index it cannot read. *)
Definition getindex (t : listbox) (v : pyval) : result Z :=
  if isinstance_int v then ret (int_value v)
  else match v with
       | PyStr "end" => ret (size t - 1)
       | _ => raise (TclError ("bad listbox index " ++ quoted (py_str v)
                               ++ ": must be active, anchor, end, @x,y, "
                               ++ "or a number"))
       end.

(** An option left at None is not passed on: Tk keeps its default. *)
Definition option_or (default : Z) (v : pyval) : result Z :=
  if is_None v then ret default else getint v.

(** [tk.Listbox.__init__(master=, height=, width=, listvariable=,
    selectmode=)]; a new list box is enabled and has nothing selected. *)
Definition Listbox (master_ height_ width_ : pyval)
    (listvariable_ : list string) (selectmode_ : pyval) : result listbox :=
  h <- option_or 10 height_ ;;
  w <- option_or 20 width_ ;;
  ret {| master := master_; height := h; width := w;
         selectmode := py_str selectmode_; state_ := NORMAL;
         listvariable := listvariable_; selection := [];
         bindings := []; calls := [] |}.

Definition record (c : call) (t : listbox) : listbox :=
  {| master := master t; height := height t; width := width t;
     selectmode := selectmode t; state_ := state_ t;
     listvariable := listvariable t; selection := selection t;
     bindings := bindings t; calls := calls t ++ [c] |}.

Definition with_selection (sel : list Z) (t : listbox) : listbox :=
  {| master := master t; height := height t; width := width t;
     selectmode := selectmode t; state_ := state_ t;
     listvariable := listvariable t; selection := sel;
     bindings := bindings t; calls := calls t |}.

Definition bind (sequence : string) (func : pyval) (t : listbox) : listbox :=
  record (call_bind sequence func)
    {| master := master t; height := height t; width := width t;
       selectmode := selectmode t; state_ := state_ t;
       listvariable := listvariable t; selection := selection t;
       bindings := bindings t ++ [(sequence, func)]; calls := calls t |}.

Definition is_disabled (t : listbox) : bool :=
  match state_ t with DISABLED => true | NORMAL => false end.

(** [selection clear first last] deselects the elements between the two
    indices, whichever of them is the larger. *)
Definition selection_clear (first last : pyval) (t : listbox)
    : result listbox :=
  i <- getindex t first ;;
  j <- getindex t last ;;
  let t := record (call_selection_clear first last) t in
  if is_disabled t then ret t
  else
    let lo := Z.min i j in
    let hi := Z.max i j in
    ret (with_selection
           (filter (fun k => negb ((lo <=? k) && (k <=? hi))) (selection t))
           t).

(** [selection set first] selects the element, if there is one. *)
Definition selection_set (first : pyval) (t : listbox) : result listbox :=
  i <- getindex t first ;;
  let t := record (call_selection_set first) t in
  if is_disabled t then ret t
  else if (0 <=? i) && (i <? size t)
  then ret (with_selection (i :: selection t) t)
  else ret t.

(** [curselection()]: the selected indices, in increasing order. *)
Definition curselection (t : listbox) : list Z :=
  filter (fun k => existsb (Z.eqb k) (selection t))
    (map Z.of_nat (seq 0 (List.length (listvariable t)))).

(** [see index]. *)
Definition see (index : pyval) (t : listbox) : result listbox :=
  _ <- getindex t index ;;
  ret (record (call_see index) t).

(** [config(state=s)]. *)
Definition config_state (s : state) (t : listbox) : listbox :=
  record (call_config_state s)
    {| master := master t; height := height t; width := width t;
       selectmode := selectmode t; state_ := s;
       listvariable := listvariable t; selection := selection t;
       bindings := bindings t; calls := calls t |}.

(** Setting the list variable: the elements change, and the selection
    of elements past the new end is dropped. *)
Definition variable_set (values : list string) (t : listbox) : listbox :=
  {| master := master t; height := height t; width := width t;
     selectmode := selectmode t; state_ := state_ t;
     listvariable := values;
     selection :=
       filter (fun k => k <? Z.of_nat (List.length values)) (selection t);
     bindings := bindings t; calls := calls t |}.

End Tk.

(** ** Listbox.py *)

Module SelectModes.
Definition Single : pyval := Tk.BROWSE.
Definition Multiple : pyval := Tk.EXTENDED.
End SelectModes.

Module Listbox.

(** The wrapper object: its own attributes and the Tk widget it is.
    [self._variable] is the list variable of the widget. *)
Record t := mk {
  _values : list string;
  _enabled : bool;
  tk : Tk.listbox
}.

(** A method returns or raises, and leaves the object in a new state
    either way. *)
Definition method (A : Type) : Type := (result A * t)%type.

(** The items of a list or tuple. *)
Definition items (v : pyval) : list pyval :=
  match v with
  | PyList l | PyTuple l => l
  | _ => []
  end.

Definition __init__
    (parent values select_mode height width on_select on_double_click
       : pyval) : result t :=
  raise_if (negb (isinstance_widget parent))
    (TypeError ("parent is not a "
                ++ "Union[tk.Widget, Union[tk.Tk, tk.Toplevel]]! "
                ++ "(type passed in: " ++ type_repr parent ++ ")")) ;;;
  raise_if (negb (isinstance_list values) && negb (is_None values))
    (TypeError ("values is not a list! " ++ "(type passed in: "
                ++ type_repr values ++ ")")) ;;;
  raise_if (negb (isinstance_str select_mode))
    (TypeError ("select_mode is not a str! " ++ "(type passed in: "
                ++ type_repr values ++ ")")) ;;;
  raise_if (negb (isinstance_int height) && negb (is_None height))
    (TypeError ("height is not a int! (type passed in: "
                ++ type_repr height ++ ")")) ;;;
  raise_if (negb (isinstance_int width) && negb (is_None height))
    (TypeError ("width is not a int! (type passed in: "
                ++ type_repr width ++ ")")) ;;;
  let self_values :=
    if negb (is_None values) then map py_str (items values) else [] in
  w <- Tk.Listbox parent height width self_values select_mode ;;
  let w :=
    if negb (is_None on_select)
    then Tk.bind "<<ListboxSelect>>" on_select w else w in
  let w :=
    if negb (is_None on_double_click)
    then Tk.bind "<<Double-1>>" on_double_click w else w in
  ret {| _values := self_values; _enabled := true; tk := w |}.

(** The getter of [selected]. *)
Definition selected (self : t) : pyval :=
  PyTuple (map PyInt (Tk.curselection (tk self))).

Definition with_tk (w : Tk.listbox) (self : t) : t :=
  {| _values := _values self; _enabled := _enabled self; tk := w |}.

(** [for index in new_selection: self.selection_set(index)]. *)
Fixpoint selection_set_each (new_selection : list pyval) (self : t)
    : method unit :=
  match new_selection with
  | [] => (ret tt, self)
  | index :: rest =>
      match Tk.selection_set index (tk self) with
      | inl e => (inl e, self)
      | inr w => selection_set_each rest (with_tk w self)
      end
  end.

(** The setter of [selected]. *)
Definition set_selected (new_selection : pyval) (self : t)
    : method unit :=
  if negb (isinstance_tuple new_selection)
  then (raise (TypeError ("new_selection is not a tuple! "
                          ++ " (type passed in: "
                          ++ type_repr new_selection ++ ")")), self)
  else
    match Tk.selection_clear (PyInt 0) Tk.END (tk self) with
    | inl e => (inl e, self)
    | inr w => selection_set_each (items new_selection) (with_tk w self)
    end.

(** The getter of [values]. *)
Definition values (self : t) : list string := _values self.

(** The setter of [values]. *)
Definition set_values (new_values : pyval) (self : t) : method unit :=
  if negb (isinstance_list new_values)
  then (raise (TypeError ("new_values is not a list! "
                          ++ "(type passed in: "
                          ++ type_repr new_values ++ ")")), self)
  else
    let self_values := map py_str (items new_values) in
    (ret tt,
     {| _values := self_values; _enabled := _enabled self;
        tk := Tk.variable_set self_values (tk self) |}).

Definition len (l : list string) : Z := Z.of_nat (List.length l).

Definition scroll_to (index : pyval) (self : t) : method unit :=
  if negb (isinstance_int index)
  then (raise (TypeError ("index is not a int! (type passed in: "
                          ++ type_repr index ++ ")")), self)
  else if int_value index <? len (_values self)
  then (raise (IndexError ("index is out of range! "
                           ++ "(index passed in: " ++ py_str index ++ " "
                           ++ "length of items: "
                           ++ str_int (len (_values self)))), self)
  else
    match Tk.see index (tk self) with
    | inl e => (inl e, self)
    | inr w => (ret tt, with_tk w self)
    end.

(** The getter of [enabled]. *)
Definition enabled (self : t) : bool := _enabled self.

(** The setter of [enabled]. *)
Definition set_enabled (new_state : pyval) (self : t) : method unit :=
  if negb (isinstance_bool new_state)
  then (raise (TypeError ("new_state is not a bool! "
                          ++ "(type passed in: "
                          ++ type_repr new_state ++ ")")), self)
  else
    let self_enabled := truthy new_state in
    (ret tt,
     {| _values := _values self; _enabled := self_enabled;
        tk := Tk.config_state
                (if self_enabled then Tk.NORMAL else Tk.DISABLED)
                (tk self) |}).

End Listbox.

(** ** The statements' vocabulary *)

(** The name [ctrl_cmd] and [alt_option] stand for on each platform. *)
Definition ctrl_cmd_name (aqua : bool) : string :=
  if aqua then "Command" else "Control".
Definition alt_option_name (aqua : bool) : string :=
  if aqua then "Option" else "Alt".

(** The modifiers of an event sequence, in the order they are written. *)
Definition event_modifiers (aqua cc ctrl shift ao : bool) : list string :=
  (if cc then [ctrl_cmd_name aqua] else []) ++
  (if ao then [alt_option_name aqua] else []) ++
  (if ctrl && negb (cc && negb aqua) then ["Control"] else []) ++
  (if shift then ["Shift"] else []).

(** The modifiers of an accelerator, in the order they are written. *)
Definition accelerator_modifiers (aqua cc ctrl shift ao : bool)
    : list string :=
  (if cc then [ctrl_cmd_name aqua] else []) ++
  (if ctrl then ["Control"] else []) ++
  (if shift then ["Shift"] else []) ++
  (if ao then [alt_option_name aqua] else []).

(** Each modifier followed by a dash. *)
Fixpoint dashed (modifiers : list string) : string :=
  match modifiers with
  | [] => EmptyString
  | m :: rest => m ++ "-" ++ dashed rest
  end.

Definition separator (aqua : bool) : string := if aqua then "-" else "+".

(** The key of an event sequence and of an accelerator, from the first
    character of the letter. *)
Definition event_key (shift : bool) (c : ascii) : string :=
  if shift then upper (String c EmptyString)
  else lower (String c EmptyString).
Definition accelerator_key (aqua : bool) (c : ascii) : string :=
  if aqua then upper (String c EmptyString)
  else replace "-" "+" (upper (String c EmptyString)).

Definition ctrl_cmd_and_ctrl_ctrl : exn :=
  ValueError "ctrl_cmd and ctrl_ctrl is True and we are not on Aqua!".

(** Every character equal to [a] replaced by [new]. *)
Fixpoint subst_char (a : ascii) (new s : string) : string :=
  match s with
  | EmptyString => EmptyString
  | String c s' =>
      (if Ascii.eqb a c then new else String c EmptyString)
      ++ subst_char a new s'
  end.

(** Widgets and a list box to run the code on. *)
Definition root_x11 : pyval := PyWidget (mk_widget "tkinter.Tk" "." x11).
Definition root_win32 : pyval :=
  PyWidget (mk_widget "TkZero.MainWindow.MainWindow" "." win32).
Definition root_aqua : pyval := PyWidget (mk_widget "tkinter.Tk" "." aqua).

(** The wrapper and the widget agree: the elements of the widget are
    [self._values], and the widget is disabled exactly when
    [self._enabled] is False.  [__init__] sets this up and every method
    keeps it. *)
Definition consistent (self : Listbox.t) : Prop :=
  Tk.listvariable (Listbox.tk self) = Listbox._values self /\
  Tk.state_ (Listbox.tk self)
  = (if Listbox._enabled self then Tk.NORMAL else Tk.DISABLED).

(** The indices of the elements of the list box. *)
Definition valid_index (self : Listbox.t) (z : Z) : Prop :=
  0 <= z < Listbox.len (Listbox.values self).

(** The list box [Listbox(root, values=["a", "b", "c"])] makes. *)
Definition abc : Listbox.t :=
  {| Listbox._values := ["a"; "b"; "c"];
     Listbox._enabled := true;
     Listbox.tk :=
       {| Tk.master := root_x11; Tk.height := 10; Tk.width := 20;
          Tk.selectmode := "browse"; Tk.state_ := Tk.NORMAL;
          Tk.listvariable := ["a"; "b"; "c"]; Tk.selection := [];
          Tk.bindings := []; Tk.calls := [] |} |}.

(** ** Vocabulary of the further properties *)

(** The arguments pass the six type checks of the key-bind functions. *)
Definition keybind_well_typed
    (widget ctrl_cmd ctrl_ctrl shift_shift alt_option letter : pyval) : bool :=
  isinstance_widget widget && isinstance_bool ctrl_cmd
  && isinstance_bool ctrl_ctrl && isinstance_bool shift_shift
  && isinstance_bool alt_option && isinstance_str letter.

(** The message of a type check: the parameter, the type asked for and
    the type of what was passed in. *)
Definition not_a (name type_ : string) (v : pyval) : string :=
  name ++ " is not a " ++ type_ ++ "! (type passed in: "
  ++ type_repr v ++ ")".

(** The first argument, in the order of the signature, that fails its
    check, with its name and the type asked for. *)
Definition first_ill_typed
    (widget ctrl_cmd ctrl_ctrl shift_shift alt_option letter : pyval)
    : option (string * string * pyval) :=
  if negb (isinstance_widget widget)
  then Some ("widget", "Union[tk.Widget, Union[tk.Tk, tk.Toplevel]]", widget)
  else if negb (isinstance_bool ctrl_cmd)
  then Some ("ctrl_cmd", "bool", ctrl_cmd)
  else if negb (isinstance_bool ctrl_ctrl)
  then Some ("ctrl_ctrl", "bool", ctrl_ctrl)
  else if negb (isinstance_bool shift_shift)
  then Some ("shift_shift", "bool", shift_shift)
  else if negb (isinstance_bool alt_option)
  then Some ("alt_option", "bool", alt_option)
  else if negb (isinstance_str letter)
  then Some ("letter", "str", letter)
  else None.

(** A call of one of the four methods of a list box that take an
    argument, and the list box it leaves, whether it returns or raises. *)
Inductive method_call :=
| Set_selected (new_selection : pyval)
| Set_values (new_values : pyval)
| Scroll_to (index : pyval)
| Set_enabled (new_state : pyval).

Definition outcome (c : method_call) (self : Listbox.t)
    : Listbox.method unit :=
  match c with
  | Set_selected v => Listbox.set_selected v self
  | Set_values v => Listbox.set_values v self
  | Scroll_to v => Listbox.scroll_to v self
  | Set_enabled v => Listbox.set_enabled v self
  end.

Definition after (calls : list method_call) (self : Listbox.t) : Listbox.t :=
  fold_left (fun self c => snd (outcome c self)) calls self.

(** The check of [Listbox.__init__] that raises, if one does: the
    parameter it names, the type it asks for and the value whose type
    its message gives, which for select_mode is [values]. *)
Definition init_check_failing (parent values select_mode height width : pyval)
    : option (string * string * pyval) :=
  if negb (isinstance_widget parent)
  then Some ("parent", "Union[tk.Widget, Union[tk.Tk, tk.Toplevel]]", parent)
  else if negb (isinstance_list values) && negb (is_None values)
  then Some ("values", "list", values)
  else if negb (isinstance_str select_mode)
  then Some ("select_mode", "str", values)
  else if negb (isinstance_int height) && negb (is_None height)
  then Some ("height", "int", height)
  else if negb (isinstance_int width) && negb (is_None height)
  then Some ("width", "int", width)
  else None.

(** ** The builtins on small inputs *)

Example replace_twice : replace "aa" "b" "aaaaa" = "bba".
Proof. reflexivity. Qed.

Example replace_empty_old : replace EmptyString "+" "abc" = "+a+b+c+".
Proof. reflexivity. Qed.

Example upper_mixed : upper "a-Z9" = "A-Z9" /\ lower "a-Z9" = "a-z9".
Proof. split; reflexivity. Qed.

(** e with acute accent, U+00E9 and U+00C9; the sharp s, U+00DF. *)
Example upper_past_ascii :
  upper (String (ascii_of_nat 233) "t" ++ String (ascii_of_nat 233) EmptyString)
  = String (ascii_of_nat 201) "T" ++ String (ascii_of_nat 201) EmptyString /\
  lower (String (ascii_of_nat 201) "T") = String (ascii_of_nat 233) "t" /\
  upper (String (ascii_of_nat 223) EmptyString) = "SS" /\
  lower (String (ascii_of_nat 223) EmptyString)
  = String (ascii_of_nat 223) EmptyString.
Proof. repeat split; reflexivity. Qed.

Example str_of_list :
  py_str (PyList [PyInt 0; PyInt (-12); PyNone; PyTuple [PyBool true];
                  PyStr "it"])
  = "[0, -12, None, (True,), 'it']".
Proof. reflexivity. Qed.

Example event_shift_alt :
  Keybind.generate_event_sequence root_aqua (PyBool false) (PyBool true)
    (PyBool true) (PyBool true) (PyStr "quit") = inr "<Option-Control-Shift-Q>".
Proof. reflexivity. Qed.

Example keybind_past_ascii :
  Keybind.generate_event_sequence root_x11 (PyBool false) (PyBool false)
    (PyBool true) (PyBool false)
    (PyStr (String (ascii_of_nat 233) EmptyString))
  = inr ("<Shift-" ++ String (ascii_of_nat 201) ">") /\
  Keybind.generate_event_sequence root_x11 (PyBool true) (PyBool false)
    (PyBool false) (PyBool false)
    (PyStr (String (ascii_of_nat 201) EmptyString))
  = inr ("<Control-" ++ String (ascii_of_nat 233) ">") /\
  Keybind.generate_accelerator_sequence root_x11 (PyBool true)
    (PyBool false) (PyBool false) (PyBool false)
    (PyStr (String (ascii_of_nat 223) EmptyString))
  = inr "Control+SS".
Proof. repeat split; reflexivity. Qed.

Example accelerator_flag_not_bool :
  Keybind.generate_accelerator_sequence root_x11 (PyBool true) (PyInt 1)
    (PyBool false) (PyBool false) (PyStr "s")
  = inl (TypeError "ctrl_ctrl is not a bool! (type passed in: <class 'int'>)").
Proof. reflexivity. Qed.

(** ** Keybind: the shape of the strings *)

Lemma prefix_char (a c : ascii) (s : string) :
  prefix (String a EmptyString) (String c s) = Ascii.eqb a c.
Proof.
  simpl. destruct (ascii_dec a c) as [->|Hne].
  - rewrite Ascii.eqb_refl. now destruct s.
  - symmetry. now apply Ascii.eqb_neq.
Qed.

Lemma replace_char (a : ascii) (new s : string) :
  replace (String a EmptyString) new s = subst_char a new s.
Proof.
  unfold replace.
  induction s as [|c s IH]; [reflexivity|].
  cbn [replace_from subst_char].
  rewrite prefix_char.
  destruct (Ascii.eqb a c); cbn [String.length Nat.sub]; now rewrite IH.
Qed.

Lemma str_in_char_app (a : ascii) (s1 s2 : string) :
  str_in (String a EmptyString) (s1 ++ s2)
  = str_in (String a EmptyString) s1 || str_in (String a EmptyString) s2.
Proof.
  induction s1 as [|c s1 IH].
  - destruct s2; reflexivity.
  - cbn [append str_in]. rewrite !prefix_char, IH.
    now rewrite orb_assoc.
Qed.

Lemma subst_char_absent (a : ascii) (new s : string) :
  str_in (String a EmptyString) new = false ->
  str_in (String a EmptyString) (subst_char a new s) = false.
Proof.
  intros Hnew. induction s as [|c s IH]; [reflexivity|].
  cbn [subst_char]. rewrite str_in_char_app, IH, orb_false_r.
  destruct (Ascii.eqb a c) eqn:E; [exact Hnew|].
  cbn [str_in]. now rewrite prefix_char, E.
Qed.

(** What the checks of the arguments leave through. *)
Lemma raise_if_inr {A} (cond : bool) (e : exn) (k : result A) (a : A) :
  (raise_if cond e ;;; k) = inr a -> cond = false /\ k = inr a.
Proof. destruct cond; [discriminate | now split]. Qed.

Lemma isinstance_widget_inv v :
  negb (isinstance_widget v) = false -> exists w, v = PyWidget w.
Proof. destruct v; try discriminate. now eexists. Qed.

Lemma isinstance_bool_inv v :
  negb (isinstance_bool v) = false -> exists b, v = PyBool b.
Proof. destruct v; try discriminate. now eexists. Qed.

Lemma isinstance_str_inv v :
  negb (isinstance_str v) = false -> exists s, v = PyStr s.
Proof. destruct v; try discriminate. now eexists. Qed.

Ltac invert_checks H :=
  repeat (apply raise_if_inr in H;
          let C := fresh "C" in destruct H as [C H];
          first [ apply isinstance_widget_inv in C
                | apply isinstance_bool_inv in C
                | apply isinstance_str_inv in C ];
          destruct C as [? ->]).






Module KeybindFacts.
Import Keybind.

Lemma event_returns widget ctrl_cmd ctrl_ctrl shift_shift alt_option letter s :
  generate_event_sequence
    widget ctrl_cmd ctrl_ctrl shift_shift alt_option letter = inr s ->
  exists w cc ctrl shift ao c rest,
    widget = PyWidget w /\ ctrl_cmd = PyBool cc /\ ctrl_ctrl = PyBool ctrl /\
    shift_shift = PyBool shift /\ alt_option = PyBool ao /\
    letter = PyStr (String c rest).
Proof.
  unfold generate_event_sequence. intros H. invert_checks H.
  match goal with
  | H : context [getitem0 (str_value (PyStr ?l))] |- _ => destruct l as [|c rest]
  end.
  - discriminate.
  - now repeat eexists.
Qed.

Lemma accelerator_returns
    widget ctrl_cmd ctrl_ctrl shift_shift alt_option letter s :
  generate_accelerator_sequence
    widget ctrl_cmd ctrl_ctrl shift_shift alt_option letter = inr s ->
  exists w cc ctrl shift ao c rest,
    widget = PyWidget w /\ ctrl_cmd = PyBool cc /\ ctrl_ctrl = PyBool ctrl /\
    shift_shift = PyBool shift /\ alt_option = PyBool ao /\
    letter = PyStr (String c rest).
Proof.
  unfold generate_accelerator_sequence. intros H. invert_checks H.
  match goal with
  | H : context [getitem0 (str_value (PyStr ?l))] |- _ => destruct l as [|c rest]
  end.
  - exfalso. revert H.
    match goal with
    | |- context [bind ?m _] => destruct m
    end; discriminate.
  - now repeat eexists.
Qed.

Lemma event_shape w cc ctrl shift ao c rest :
  generate_event_sequence (PyWidget w) (PyBool cc) (PyBool ctrl)
    (PyBool shift) (PyBool ao) (PyStr (String c rest))
  = inr ("<" ++ dashed (event_modifiers (on_aqua (PyWidget w))
                          cc ctrl shift ao)
             ++ event_key shift c ++ ">").
Proof.
  destruct w as [cls path []], cc, ctrl, shift, ao; reflexivity.
Qed.

Lemma accelerator_shape w cc ctrl shift ao c rest :
  generate_accelerator_sequence (PyWidget w) (PyBool cc) (PyBool ctrl)
    (PyBool shift) (PyBool ao) (PyStr (String c rest))
  = if cc && ctrl && negb (on_aqua (PyWidget w))
    then inl ctrl_cmd_and_ctrl_ctrl
    else inr (String.concat (separator (on_aqua (PyWidget w)))
                (accelerator_modifiers (on_aqua (PyWidget w))
                   cc ctrl shift ao
                 ++ [accelerator_key (on_aqua (PyWidget w)) c])).
Proof.
  unfold Keybind.generate_accelerator_sequence, accelerator_key.
  destruct w as [cls path []], cc, ctrl, shift, ao;
    cbn - [replace upper]; rewrite ?replace_char; reflexivity.
Qed.

Lemma accelerator_key_no_dash c : str_in "-" (accelerator_key false c) = false.
Proof.
  unfold accelerator_key. rewrite replace_char.
  now apply subst_char_absent.
Qed.

End KeybindFacts.

(** ** Keybind: the claims *)

(** C1, counterexample: on x11, with ctrl_cmd and ctrl_ctrl both True,
    generate_event_sequence raises nothing and returns "<Control-s>". *)
Lemma event_ctrl_cmd_ctrl_ctrl_returns :
  Keybind.generate_event_sequence root_x11 (PyBool true) (PyBool true)
    (PyBool false) (PyBool false) (PyStr "s") = inr "<Control-s>" /\
  ~ (exists e,
       Keybind.generate_event_sequence root_x11 (PyBool true) (PyBool true)
         (PyBool false) (PyBool false) (PyStr "s") = inl e).
Proof.
  split; [reflexivity|]. intros [e He]. discriminate He.
Qed.

(** C1, amended: off Aqua, with ctrl_cmd and ctrl_ctrl both True,
    generate_accelerator_sequence raises the ValueError, whatever the
    letter, while generate_event_sequence returns what it returns with
    ctrl_ctrl False; on Aqua, or without ctrl_cmd, ctrl_ctrl True puts
    one more modifier into the string either function returns for a
    letter that is not empty: "Control-" in the event sequence, "Control"
    and the separator in the accelerator. *)
Theorem ctrl_ctrl_literal_Control w cc shift ao letter c rest :
  let event ctrl l :=
    Keybind.generate_event_sequence (PyWidget w) (PyBool cc) (PyBool ctrl)
      (PyBool shift) (PyBool ao) (PyStr l) in
  let accelerator ctrl l :=
    Keybind.generate_accelerator_sequence (PyWidget w) (PyBool cc)
      (PyBool ctrl) (PyBool shift) (PyBool ao) (PyStr l) in
  (on_aqua (PyWidget w) = false /\ cc = true ->
   accelerator true letter = inl ctrl_cmd_and_ctrl_ctrl /\
   event true letter = event false letter /\
   exists s, event true (String c rest) = inr s) /\
  (on_aqua (PyWidget w) = true \/ cc = false ->
   exists pre post pre' post',
     event false (String c rest) = inr (pre ++ post) /\
     event true (String c rest) = inr (pre ++ "Control-" ++ post) /\
     accelerator false (String c rest) = inr (pre' ++ post') /\
     accelerator true (String c rest)
     = inr (pre' ++ "Control" ++ separator (on_aqua (PyWidget w)) ++ post')).
Proof.
  intros event accelerator. subst event accelerator. split.
  - intros [Haqua ->]. repeat split.
    + destruct w as [cls path []]; try discriminate Haqua; reflexivity.
    + destruct w as [cls path []]; try discriminate Haqua;
        destruct shift, ao; reflexivity.
    + rewrite KeybindFacts.event_shape. now eexists.
  - intros H.
    exists ("<" ++ dashed ((if cc then [ctrl_cmd_name (on_aqua (PyWidget w))]
                            else [])
                           ++ (if ao
                               then [alt_option_name (on_aqua (PyWidget w))]
                               else []))),
           (dashed (if shift then ["Shift"] else [])
            ++ event_key shift c ++ ">"),
           (if cc then "Command-" else EmptyString),
           (String.concat (separator (on_aqua (PyWidget w)))
              ((if shift then ["Shift"] else [])
               ++ (if ao then [alt_option_name (on_aqua (PyWidget w))]
                   else [])
               ++ [accelerator_key (on_aqua (PyWidget w)) c])).
    rewrite !KeybindFacts.event_shape, !KeybindFacts.accelerator_shape.
    destruct w as [cls path []], cc; destruct H as [H|H];
      try discriminate H; destruct shift, ao; repeat split; reflexivity.
Qed.

Lemma ctrl_ctrl_literal_Control_witness :
  (Keybind.generate_accelerator_sequence root_win32 (PyBool true)
     (PyBool true) (PyBool true) (PyBool false) (PyStr EmptyString)
   = inl ctrl_cmd_and_ctrl_ctrl) /\
  (exists pre post,
     Keybind.generate_event_sequence root_aqua (PyBool true) (PyBool false)
       (PyBool false) (PyBool false) (PyStr "q") = inr (pre ++ post) /\
     Keybind.generate_event_sequence root_aqua (PyBool true) (PyBool true)
       (PyBool false) (PyBool false) (PyStr "q")
     = inr (pre ++ "Control-" ++ post)).
Proof.
  split.
  - apply (ctrl_ctrl_literal_Control
             (mk_widget "TkZero.MainWindow.MainWindow" "." win32)
             true true false EmptyString "q" EmptyString).
    split; reflexivity.
  - destruct (proj2 (ctrl_ctrl_literal_Control
                       (mk_widget "tkinter.Tk" "." aqua)
                       true false false EmptyString "q" EmptyString)
                (or_introl eq_refl))
      as (pre & post & _ & _ & He & He' & _).
    exists pre, post. split; [exact He | exact He'].
Defined.

(** C3: with ctrl_cmd alone and the letter "s", the event sequence is
    "<Control-s>" and the accelerator "Control+S" off Aqua, and they are
    "<Command-s>" and "Command-S" on Aqua. *)
Theorem ctrl_cmd_s_example w :
  Keybind.generate_event_sequence (PyWidget w) (PyBool true) (PyBool false)
    (PyBool false) (PyBool false) (PyStr "s")
  = inr (if on_aqua (PyWidget w) then "<Command-s>" else "<Control-s>") /\
  Keybind.generate_accelerator_sequence (PyWidget w) (PyBool true)
    (PyBool false) (PyBool false) (PyBool false) (PyStr "s")
  = inr (if on_aqua (PyWidget w) then "Command-S" else "Control+S").
Proof. destruct w as [cls path []]; split; reflexivity. Qed.





(** C7: whenever generate_accelerator_sequence returns, the string is
    the modifiers and the key joined by "-" on Aqua and by "+"
    elsewhere, and off Aqua it has no "-" at all. *)
Theorem accelerator_separator
    widget ctrl_cmd ctrl_ctrl shift_shift alt_option letter s :
  Keybind.generate_accelerator_sequence
    widget ctrl_cmd ctrl_ctrl shift_shift alt_option letter = inr s ->
  separator (on_aqua widget) = (if on_aqua widget then "-" else "+") /\
  (exists c rest,
     letter = PyStr (String c rest) /\
     s = String.concat (separator (on_aqua widget))
           (accelerator_modifiers (on_aqua widget) (truthy ctrl_cmd)
              (truthy ctrl_ctrl) (truthy shift_shift) (truthy alt_option)
            ++ [accelerator_key (on_aqua widget) c])) /\
  (on_aqua widget = false -> str_in "-" s = false).
Proof.
  intros H. split; [reflexivity|].
  destruct (KeybindFacts.accelerator_returns _ _ _ _ _ _ _ H)
    as (w & cc & ctrl & shift & ao & c & rest
        & -> & -> & -> & -> & -> & ->).
  rewrite KeybindFacts.accelerator_shape in H.
  destruct (cc && ctrl && negb (on_aqua (PyWidget w))); [discriminate|].
  injection H as <-. split; [now exists c, rest|].
  intros Ha. cbn [on_aqua] in Ha. rewrite Ha.
  pose proof (KeybindFacts.accelerator_key_no_dash c) as K.
  destruct cc, ctrl, shift, ao;
    cbn [accelerator_modifiers ctrl_cmd_name alt_option_name app
         String.concat separator];
    rewrite ?str_in_char_app, K; reflexivity.
Qed.

Lemma accelerator_separator_witness :
  (exists c rest,
     PyStr "-" = PyStr (String c rest) /\
     "Control+Shift++"
     = String.concat "+" (accelerator_modifiers false true false true false
                          ++ [accelerator_key false c])) /\
  (on_aqua root_win32 = false -> str_in "-" "Control+Shift++" = false).
Proof.
  apply (accelerator_separator root_win32 (PyBool true) (PyBool false)
           (PyBool true) (PyBool false) (PyStr "-") "Control+Shift++").
  reflexivity.
Defined.

(** C8: the two functions are functions of the platform, the four flags
    and the letter alone: on two widgets of one platform, whatever else
    differs between them, the same flags and letter give the same
    outcome. *)
Theorem keybind_pure
    w1 w2 ctrl_cmd ctrl_ctrl shift_shift alt_option letter :
  on_aqua (PyWidget w1) = on_aqua (PyWidget w2) ->
  Keybind.generate_event_sequence
    (PyWidget w1) ctrl_cmd ctrl_ctrl shift_shift alt_option letter
  = Keybind.generate_event_sequence
      (PyWidget w2) ctrl_cmd ctrl_ctrl shift_shift alt_option letter /\
  Keybind.generate_accelerator_sequence
    (PyWidget w1) ctrl_cmd ctrl_ctrl shift_shift alt_option letter
  = Keybind.generate_accelerator_sequence
      (PyWidget w2) ctrl_cmd ctrl_ctrl shift_shift alt_option letter.
Proof.
  intros H.
  unfold Keybind.generate_event_sequence,
    Keybind.generate_accelerator_sequence.
  cbn [isinstance_widget negb raise_if bind ret].
  now rewrite H.
Qed.

Lemma keybind_pure_witness :
  Keybind.generate_event_sequence
    root_x11 (PyBool true) (PyBool false) (PyBool true) (PyBool false)
    (PyStr "k")
  = Keybind.generate_event_sequence
      root_win32 (PyBool true) (PyBool false) (PyBool true) (PyBool false)
      (PyStr "k") /\
  Keybind.generate_accelerator_sequence
    root_x11 (PyBool true) (PyBool false) (PyBool true) (PyBool false)
    (PyStr "k")
  = Keybind.generate_accelerator_sequence
      root_win32 (PyBool true) (PyBool false) (PyBool true) (PyBool false)
      (PyStr "k").
Proof.
  apply (keybind_pure (mk_widget "tkinter.Tk" "." x11)
           (mk_widget "TkZero.MainWindow.MainWindow" "." win32)).
  reflexivity.
Defined.

(** C10, counterexample: on x11, with ctrl_cmd and ctrl_ctrl both True,
    generate_accelerator_sequence raises the ValueError on the empty
    letter, not an IndexError. *)
Lemma accelerator_empty_letter_ValueError :
  Keybind.generate_accelerator_sequence root_x11 (PyBool true) (PyBool true)
    (PyBool false) (PyBool false) (PyStr EmptyString)
  = inl ctrl_cmd_and_ctrl_ctrl /\
  ~ (exists msg,
       Keybind.generate_accelerator_sequence root_x11 (PyBool true)
         (PyBool true) (PyBool false) (PyBool false) (PyStr EmptyString)
       = inl (IndexError msg)).
Proof.
  split; [reflexivity|]. intros [msg H]. discriminate H.
Qed.

(** C10, amended: on the empty letter generate_event_sequence raises the
    IndexError of [letter[0]], and so does
    generate_accelerator_sequence, except off Aqua with ctrl_cmd and
    ctrl_ctrl both True, where it raises its ValueError before it reads
    the letter. *)
Theorem empty_letter_raises w cc ctrl shift ao :
  Keybind.generate_event_sequence (PyWidget w) (PyBool cc) (PyBool ctrl)
    (PyBool shift) (PyBool ao) (PyStr EmptyString)
  = inl (IndexError "string index out of range") /\
  Keybind.generate_accelerator_sequence (PyWidget w) (PyBool cc)
    (PyBool ctrl) (PyBool shift) (PyBool ao) (PyStr EmptyString)
  = inl (if cc && ctrl && negb (on_aqua (PyWidget w))
         then ctrl_cmd_and_ctrl_ctrl
         else IndexError "string index out of range").
Proof.
  destruct w as [cls path []], cc, ctrl, shift, ao; split; reflexivity.
Qed.

(** ** Listbox: the wrapper and the widget *)

Module ListboxFacts.
Import Listbox.

Lemma abc_init :
  __init__ root_x11 (PyList [PyStr "a"; PyStr "b"; PyStr "c"])
    SelectModes.Single PyNone PyNone PyNone PyNone = inr abc.
Proof. reflexivity. Qed.

Lemma init_consistent
    parent values_ select_mode height width on_select on_double_click self :
  __init__ parent values_ select_mode height width on_select on_double_click
  = inr self ->
  consistent self /\ enabled self = true.
Proof.
  unfold __init__. intros H.
  repeat (apply raise_if_inr in H; destruct H as [_ H]).
  destruct (Tk.Listbox parent height width _ select_mode) as [e|w] eqn:E;
    [discriminate|].
  cbn [bind] in H. injection H as <-.
  unfold Tk.Listbox in E.
  destruct (Tk.option_or 10 height); [discriminate|].
  destruct (Tk.option_or 20 width); [discriminate|].
  injection E as <-.
  destruct (negb (is_None on_select)), (negb (is_None on_double_click));
    repeat split.
Qed.

Lemma getindex_int (w : Tk.listbox) (z : Z) : Tk.getindex w (PyInt z) = inr z.
Proof. reflexivity. Qed.

Lemma curselection_spec (w : Tk.listbox) (z : Z) :
  In z (Tk.curselection w) <-> 0 <= z < Tk.size w /\ In z (Tk.selection w).
Proof.
  unfold Tk.curselection, Tk.size.
  rewrite filter_In, in_map_iff, existsb_exists. split.
  - intros [(n & <- & Hn%in_seq) (y & Hy & E%Z.eqb_eq)].
    subst y. split; [lia | exact Hy].
  - intros [Hz Hs]. split.
    + exists (Z.to_nat z). split; [lia | apply in_seq; lia].
    + exists z. split; [exact Hs | apply Z.eqb_refl].
Qed.

(** Selecting valid indices one by one on an enabled widget adds them
    to the selection and changes nothing else. *)
Lemma selection_set_each_valid (l : list Z) : forall self,
  Tk.state_ (tk self) = Tk.NORMAL ->
  Forall (fun z => 0 <= z < Tk.size (tk self)) l ->
  exists self',
    selection_set_each (map PyInt l) self = (inr tt, self') /\
    _values self' = _values self /\
    _enabled self' = _enabled self /\
    Tk.listvariable (tk self') = Tk.listvariable (tk self) /\
    Tk.state_ (tk self') = Tk.state_ (tk self) /\
    (forall z, In z (Tk.selection (tk self'))
               <-> In z l \/ In z (Tk.selection (tk self))).
Proof.
  induction l as [|i l IH]; intros self Hn Hl.
  - exists self. cbn. intuition.
  - inversion Hl as [|? ? Hi Hl']; subst.
    cbn [map selection_set_each].
    unfold Tk.selection_set. rewrite getindex_int. cbn [bind].
    unfold Tk.is_disabled. cbn [Tk.record Tk.state_]. rewrite Hn.
    replace ((0 <=? i) && (i <? Tk.size _)) with true
      by (symmetry; apply andb_true_iff; split;
          [apply Z.leb_le | apply Z.ltb_lt]; unfold Tk.size in *;
          cbn [Tk.record Tk.listvariable]; lia).
    cbn [ret].
    destruct (IH (with_tk (Tk.with_selection
                             (i :: Tk.selection
                                     (Tk.record (Tk.call_selection_set
                                                   (PyInt i)) (tk self)))
                             (Tk.record (Tk.call_selection_set (PyInt i))
                                (tk self))) self))
      as (self' & E & Hv & He & Hlv & Hst & Hsel).
    + exact Hn.
    + exact Hl'.
    + exists self'. split; [exact E|].
      split; [exact Hv|]. split; [exact He|].
      split; [exact Hlv|]. split; [rewrite Hst; exact Hn|].
      intros z. rewrite Hsel. cbn. tauto.
Qed.

End ListboxFacts.

Module ListboxInvariant.
Import Listbox.

(** The widget calls the methods make leave the elements and the state
    of the widget alone. *)
Lemma selection_set_keeps index w w' :
  Tk.selection_set index w = inr w' ->
  Tk.listvariable w' = Tk.listvariable w /\ Tk.state_ w' = Tk.state_ w.
Proof.
  unfold Tk.selection_set.
  destruct (Tk.getindex w index) as [e|i]; [discriminate|]. cbn [bind].
  destruct (Tk.is_disabled _); [|destruct (_ && _)];
    intros [= <-]; now split.
Qed.

Lemma selection_clear_keeps first last w w' :
  Tk.selection_clear first last w = inr w' ->
  Tk.listvariable w' = Tk.listvariable w /\ Tk.state_ w' = Tk.state_ w.
Proof.
  unfold Tk.selection_clear.
  destruct (Tk.getindex w first) as [e|i]; [discriminate|]. cbn [bind].
  destruct (Tk.getindex w last) as [e|j]; [discriminate|]. cbn [bind].
  destruct (Tk.is_disabled _); intros [= <-]; now split.
Qed.

Lemma selection_set_each_consistent l : forall self,
  consistent self -> consistent (snd (selection_set_each l self)).
Proof.
  induction l as [|index l IH]; intros self H; [exact H|].
  cbn [selection_set_each].
  destruct (Tk.selection_set index (tk self)) as [e|w] eqn:E; [exact H|].
  apply IH. destruct (selection_set_keeps _ _ _ E) as [Hl Hs].
  destruct H as [H1 H2]. split; cbn; congruence.
Qed.

Lemma set_selected_consistent new_selection self :
  consistent self -> consistent (snd (set_selected new_selection self)).
Proof.
  intros H. unfold set_selected.
  destruct (negb (isinstance_tuple new_selection)); [exact H|].
  destruct (Tk.selection_clear _ _ _) as [e|w] eqn:E; [exact H|].
  apply selection_set_each_consistent.
  destruct (selection_clear_keeps _ _ _ _ E) as [Hl Hs].
  destruct H as [H1 H2]. split; cbn; congruence.
Qed.

Lemma set_values_consistent new_values self :
  consistent self -> consistent (snd (set_values new_values self)).
Proof.
  intros [H1 H2]. unfold set_values.
  destruct (negb (isinstance_list new_values)); [now split|].
  split; [reflexivity | exact H2].
Qed.

Lemma scroll_to_consistent index self :
  consistent self -> consistent (snd (scroll_to index self)).
Proof.
  intros H. unfold scroll_to.
  destruct (negb (isinstance_int index)); [exact H|].
  destruct (_ <? _); [exact H|].
  unfold Tk.see. destruct (Tk.getindex _ _); exact H.
Qed.

Lemma set_enabled_consistent new_state self :
  consistent self -> consistent (snd (set_enabled new_state self)).
Proof.
  intros [H1 H2]. unfold set_enabled.
  destruct (negb (isinstance_bool new_state)); [now split|].
  split; [exact H1|]. cbn. now destruct (truthy new_state).
Qed.

(** The setters reject an argument of the wrong type, and name it and
    its type. *)
Lemma setters_type_checked v self :
  (isinstance_list v = false ->
   set_values v self
   = (inl (TypeError ("new_values is not a list! (type passed in: "
                      ++ type_repr v ++ ")")), self)) /\
  (isinstance_tuple v = false ->
   set_selected v self
   = (inl (TypeError ("new_selection is not a tuple!  (type passed in: "
                      ++ type_repr v ++ ")")), self)) /\
  (isinstance_bool v = false ->
   set_enabled v self
   = (inl (TypeError ("new_state is not a bool! (type passed in: "
                      ++ type_repr v ++ ")")), self)).
Proof.
  unfold set_values, set_selected, set_enabled.
  repeat split; intros ->; reflexivity.
Qed.

End ListboxInvariant.

(** ** Listbox: the claims *)

(** C2: three places where the checks of [Listbox.__init__] miss.  An
    int for select_mode is rejected, but the message gives the type of
    values, here NoneType; a str for width gets past the checks when
    height is None, and it is the toolkit that refuses it, with a
    TclError; an int for on_select is accepted. *)
Theorem Listbox_init_checks_miss :
  Listbox.__init__ root_x11 PyNone (PyInt 5) PyNone PyNone PyNone PyNone
  = inl (TypeError
           "select_mode is not a str! (type passed in: <class 'NoneType'>)")
  /\
  (Listbox.__init__
     root_x11 PyNone SelectModes.Single PyNone (PyStr "wide") PyNone PyNone
   = inl (TclError ("expected integer but got " ++ Tk.quoted "wide")) /\
   ~ (exists msg,
        Listbox.__init__
          root_x11 PyNone SelectModes.Single PyNone (PyStr "wide")
          PyNone PyNone
        = inl (TypeError msg))) /\
  (exists self,
     Listbox.__init__
       root_x11 PyNone SelectModes.Single PyNone PyNone (PyInt 5) PyNone
     = inr self).
Proof.
  split; [reflexivity|]. split.
  - split; [reflexivity|]. intros [msg H]. discriminate H.
  - eexists. reflexivity.
Qed.

(** C4, counterexample: on the list box of "a", "b", "c", once disabled,
    assigning the tuple (0,) to selected raises nothing and changes
    nothing: selected reads back as the empty tuple. *)
Lemma selected_not_read_back_when_disabled :
  exists disabled self',
    Listbox.set_enabled (PyBool false) abc = (inr tt, disabled) /\
    valid_index disabled 0 /\
    Listbox.set_selected (PyTuple [PyInt 0]) disabled = (inr tt, self') /\
    Listbox.selected self' = PyTuple [] /\
    ~ In (PyInt 0) (Listbox.items (Listbox.selected self')).
Proof.
  do 2 eexists. split; [reflexivity|]. split; [now compute|].
  split; [reflexivity|]. split; [reflexivity|]. intros [].
Qed.

(** C4, amended: after assigning a list to values, the property reads
    as that list with every element turned into a str; after assigning
    a tuple of valid indices to selected on a list box that is enabled,
    the property reads as a tuple of the same indices, as a set.  (On a
    disabled list box the toolkit leaves the selection as it was.) *)
Theorem setters_round_trip self :
  (forall new_values,
     exists self',
       Listbox.set_values (PyList new_values) self = (inr tt, self') /\
       Listbox.values self' = map py_str new_values) /\
  (forall indices,
     consistent self ->
     Listbox.enabled self = true ->
     Forall (valid_index self) indices ->
     exists self' read,
       Listbox.set_selected (PyTuple (map PyInt indices)) self
       = (inr tt, self') /\
       Listbox.selected self' = PyTuple (map PyInt read) /\
       forall z, In z read <-> In z indices).
Proof.
  split.
  - intros new_values. eexists. split; reflexivity.
  - intros indices [Hlv Hst] Hen Hvalid.
    unfold Listbox.enabled in Hen. rewrite Hen in Hst.
    unfold Listbox.set_selected. cbn [isinstance_tuple negb Listbox.items].
    unfold Tk.selection_clear, Tk.END.
    rewrite ListboxFacts.getindex_int. unfold Tk.is_disabled.
    cbn [bind ret Tk.getindex isinstance_int Tk.record Tk.state_].
    rewrite Hst.
    set (cleared := Tk.with_selection _ _).
    assert (Hsize : Tk.size cleared = Listbox.len (Listbox.values self)).
    { unfold Tk.size, Listbox.len, Listbox.values. subst cleared.
      cbn [Tk.with_selection Tk.record Tk.listvariable]. now rewrite Hlv. }
    destruct (ListboxFacts.selection_set_each_valid indices
                (Listbox.with_tk cleared self))
      as (self' & E & _ & _ & Hlv' & _ & Hsel).
    + exact Hst.
    + cbn [Listbox.with_tk Listbox.tk]. rewrite Hsize. exact Hvalid.
    + exists self', (Tk.curselection (Listbox.tk self')).
      split; [exact E|]. split; [reflexivity|].
      intros z. rewrite ListboxFacts.curselection_spec, Hsel.
      assert (Hsize' : Tk.size (Listbox.tk self')
                       = Listbox.len (Listbox.values self)).
      { rewrite <- Hsize. unfold Tk.size. now rewrite Hlv'. }
      rewrite Hsize'. split.
      * intros [Hz [Hin|Hin]]; [exact Hin|]. exfalso.
        subst cleared. cbn in Hin. apply filter_In in Hin.
        destruct Hin as [_ Hout]. apply negb_true_iff in Hout.
        apply andb_false_iff in Hout. unfold Tk.size in Hout.
        rewrite Hlv in Hout. unfold Listbox.len, Listbox.values in Hz.
        destruct Hout as [Hout|Hout];
          [apply Z.leb_gt in Hout | apply Z.leb_gt in Hout]; lia.
      * intros Hin. split; [|now left].
        rewrite Forall_forall in Hvalid. exact (Hvalid z Hin).
Qed.

Lemma setters_round_trip_witness :
  exists self' read,
    Listbox.set_selected (PyTuple (map PyInt [2; 0; 2])) abc
    = (inr tt, self') /\
    Listbox.selected self' = PyTuple (map PyInt read) /\
    forall z, In z read <-> In z [2; 0; 2].
Proof.
  apply (proj2 (setters_round_trip abc)).
  - split; reflexivity.
  - reflexivity.
  - repeat constructor; compute; intuition discriminate.
Defined.

(** C9: for an int index, scroll_to raises the IndexError exactly when
    the index is below the number of values, and otherwise raises
    nothing and makes the [see] call of the widget with the index. *)
Theorem scroll_to_raises_below_len self index :
  isinstance_int index = true ->
  (int_value index < Listbox.len (Listbox.values self) ->
   Listbox.scroll_to index self
   = (inl (IndexError
             ("index is out of range! (index passed in: " ++ py_str index
              ++ " length of items: "
              ++ str_int (Listbox.len (Listbox.values self)))), self)) /\
  (Listbox.len (Listbox.values self) <= int_value index ->
   exists self',
     Listbox.scroll_to index self = (inr tt, self') /\
     Listbox.values self' = Listbox.values self /\
     Tk.calls (Listbox.tk self')
     = (Tk.calls (Listbox.tk self) ++ [Tk.call_see index])%list).
Proof.
  intros Hint. unfold Listbox.scroll_to. rewrite Hint. cbn [negb].
  unfold Listbox.values. split; intros H.
  - apply Z.ltb_lt in H. now rewrite H.
  - apply Z.ltb_ge in H. rewrite H.
    unfold Tk.see, Tk.getindex. rewrite Hint. cbn [bind ret].
    eexists. split; [reflexivity|]. split; reflexivity.
Qed.

Lemma scroll_to_raises_below_len_witness :
  Listbox.scroll_to (PyInt 1) abc
  = (inl (IndexError
            "index is out of range! (index passed in: 1 length of items: 3"),
     abc) /\
  exists self',
    Listbox.scroll_to (PyInt 3) abc = (inr tt, self') /\
    Listbox.values self' = Listbox.values abc /\
    Tk.calls (Listbox.tk self')
    = (Tk.calls (Listbox.tk abc) ++ [Tk.call_see (PyInt 3)])%list.
Proof.
  split.
  - apply (proj1 (scroll_to_raises_below_len abc (PyInt 1) eq_refl)).
    reflexivity.
  - apply (proj2 (scroll_to_raises_below_len abc (PyInt 3) eq_refl)).
    discriminate.
Defined.

(** * Further properties of the code *)

(** ** Keybind *)

Module KeybindMore.
Import Keybind.

Lemma well_typed_inv widget ctrl_cmd ctrl_ctrl shift_shift alt_option letter :
  keybind_well_typed
    widget ctrl_cmd ctrl_ctrl shift_shift alt_option letter = true ->
  exists w cc ctrl shift ao l,
    widget = PyWidget w /\ ctrl_cmd = PyBool cc /\ ctrl_ctrl = PyBool ctrl /\
    shift_shift = PyBool shift /\ alt_option = PyBool ao /\ letter = PyStr l.
Proof.
  unfold keybind_well_typed. intros H.
  repeat (apply andb_true_iff in H; let H' := fresh "T" in destruct H as [H H']).
  destruct widget; try discriminate H.
  destruct ctrl_cmd; try discriminate T3.
  destruct ctrl_ctrl; try discriminate T2.
  destruct shift_shift; try discriminate T1.
  destruct alt_option; try discriminate T0.
  destruct letter; try discriminate T.
  now repeat eexists.
Qed.

Lemma case_ascii (c : ascii) :
  (nat_of_ascii c < 128)%nat ->
  upper_char (upper_ascii c) = upper_char c /\
  upper_char (lower_ascii c) = upper_char c /\
  lower_char (upper_ascii c) = lower_char c /\
  lower_char (lower_ascii c) = lower_char c.
Proof.
  intros H. apply Nat.ltb_lt in H.
  destruct c as [[] [] [] [] [] [] [] []];
    first [discriminate H | vm_compute; repeat split].
Qed.

End KeybindMore.

(** X1: generate_event_sequence returns a string exactly when the six
    arguments have their types and the letter is not empty;
    generate_accelerator_sequence needs in addition that ctrl_cmd and
    ctrl_ctrl are not both True off Aqua. *)
Theorem keybind_returns_iff
    widget ctrl_cmd ctrl_ctrl shift_shift alt_option letter :
  ((exists s,
      Keybind.generate_event_sequence
        widget ctrl_cmd ctrl_ctrl shift_shift alt_option letter = inr s)
   <-> keybind_well_typed
         widget ctrl_cmd ctrl_ctrl shift_shift alt_option letter = true
       /\ str_value letter <> EmptyString) /\
  ((exists s,
      Keybind.generate_accelerator_sequence
        widget ctrl_cmd ctrl_ctrl shift_shift alt_option letter = inr s)
   <-> keybind_well_typed
         widget ctrl_cmd ctrl_ctrl shift_shift alt_option letter = true
       /\ str_value letter <> EmptyString
       /\ truthy ctrl_cmd && truthy ctrl_ctrl && negb (on_aqua widget)
          = false).
Proof.
  split; split.
  - intros [s H].
    destruct (KeybindFacts.event_returns _ _ _ _ _ _ _ H)
      as (w & cc & ctrl & shift & ao & c & rest
          & -> & -> & -> & -> & -> & ->).
    split; [reflexivity | discriminate].
  - intros [T N].
    destruct (KeybindMore.well_typed_inv _ _ _ _ _ _ T)
      as (w & cc & ctrl & shift & ao & l
          & -> & -> & -> & -> & -> & ->).
    destruct l as [|c rest]; [now elim N|].
    rewrite KeybindFacts.event_shape. now eexists.
  - intros [s H].
    destruct (KeybindFacts.accelerator_returns _ _ _ _ _ _ _ H)
      as (w & cc & ctrl & shift & ao & c & rest
          & -> & -> & -> & -> & -> & ->).
    rewrite KeybindFacts.accelerator_shape in H. cbn [truthy].
    destruct (cc && ctrl && negb (on_aqua (PyWidget w))); [discriminate|].
    split; [reflexivity|]. split; [discriminate | reflexivity].
  - intros (T & N & V).
    destruct (KeybindMore.well_typed_inv _ _ _ _ _ _ T)
      as (w & cc & ctrl & shift & ao & l
          & -> & -> & -> & -> & -> & ->).
    destruct l as [|c rest]; [now elim N|].
    rewrite KeybindFacts.accelerator_shape. cbn [truthy] in V.
    rewrite V. now eexists.
Qed.

Lemma keybind_returns_iff_witness :
  (exists s,
     Keybind.generate_event_sequence root_win32 (PyBool true) (PyBool true)
       (PyBool false) (PyBool true) (PyStr "x") = inr s) /\
  (keybind_well_typed root_aqua (PyBool true) (PyBool true)
     (PyBool false) (PyBool true) (PyStr "x") = true
   /\ str_value (PyStr "x") <> EmptyString
   /\ truthy (PyBool true) && truthy (PyBool true) && negb (on_aqua root_aqua)
      = false).
Proof.
  split.
  - apply (proj1 (keybind_returns_iff root_win32 (PyBool true) (PyBool true)
                    (PyBool false) (PyBool true) (PyStr "x"))).
    split; [reflexivity | discriminate].
  - apply (proj2 (keybind_returns_iff root_aqua (PyBool true) (PyBool true)
                    (PyBool false) (PyBool true) (PyStr "x"))).
    now exists "Command-Control-Option-X".
Defined.

(** X2: when an argument fails its type check, both functions raise the
    same TypeError, and its message names the first such argument, in the
    order of the signature, the type asked for and the type passed in. *)
Theorem keybind_type_error
    widget ctrl_cmd ctrl_ctrl shift_shift alt_option letter name type_ v :
  first_ill_typed widget ctrl_cmd ctrl_ctrl shift_shift alt_option letter
  = Some (name, type_, v) ->
  Keybind.generate_event_sequence
    widget ctrl_cmd ctrl_ctrl shift_shift alt_option letter
  = inl (TypeError (not_a name type_ v)) /\
  Keybind.generate_accelerator_sequence
    widget ctrl_cmd ctrl_ctrl shift_shift alt_option letter
  = inl (TypeError (not_a name type_ v)).
Proof.
  unfold first_ill_typed, Keybind.generate_event_sequence,
    Keybind.generate_accelerator_sequence.
  destruct (negb (isinstance_widget widget));
    [intros [= <- <- <-]; split; reflexivity|].
  destruct (negb (isinstance_bool ctrl_cmd));
    [intros [= <- <- <-]; split; reflexivity|].
  destruct (negb (isinstance_bool ctrl_ctrl));
    [intros [= <- <- <-]; split; reflexivity|].
  destruct (negb (isinstance_bool shift_shift));
    [intros [= <- <- <-]; split; reflexivity|].
  destruct (negb (isinstance_bool alt_option));
    [intros [= <- <- <-]; split; reflexivity|].
  destruct (negb (isinstance_str letter));
    [intros [= <- <- <-]; split; reflexivity|].
  discriminate.
Qed.

Lemma keybind_type_error_witness :
  Keybind.generate_event_sequence root_x11 (PyBool true) (PyInt 0)
    (PyStr "no") (PyBool false) PyNone
  = inl (TypeError "ctrl_ctrl is not a bool! (type passed in: <class 'int'>)")
  /\
  Keybind.generate_accelerator_sequence root_x11 (PyBool true) (PyInt 0)
    (PyStr "no") (PyBool false) PyNone
  = inl (TypeError "ctrl_ctrl is not a bool! (type passed in: <class 'int'>)").
Proof.
  apply (keybind_type_error root_x11 (PyBool true) (PyInt 0) (PyStr "no")
           (PyBool false) PyNone "ctrl_ctrl" "bool" (PyInt 0)).
  reflexivity.
Defined.

(** X3: for an ASCII first character, neither its case nor what follows
    it in the letter matters: the upper-case and the lower-case
    character give the outcome of the character itself, in both
    functions. *)
Theorem letter_case_ignored w cc ctrl shift ao c rest rest' :
  (nat_of_ascii c < 128)%nat ->
  let event l :=
    Keybind.generate_event_sequence (PyWidget w) (PyBool cc) (PyBool ctrl)
      (PyBool shift) (PyBool ao) (PyStr l) in
  let accelerator l :=
    Keybind.generate_accelerator_sequence (PyWidget w) (PyBool cc)
      (PyBool ctrl) (PyBool shift) (PyBool ao) (PyStr l) in
  event (String (upper_ascii c) rest') = event (String c rest) /\
  event (String (lower_ascii c) rest') = event (String c rest) /\
  accelerator (String (upper_ascii c) rest') = accelerator (String c rest) /\
  accelerator (String (lower_ascii c) rest') = accelerator (String c rest).
Proof.
  intros Hascii event accelerator. subst event accelerator. cbv beta.
  rewrite !KeybindFacts.event_shape, !KeybindFacts.accelerator_shape.
  unfold event_key, accelerator_key. cbn [upper lower].
  destruct (KeybindMore.case_ascii c Hascii) as (UU & UL & LU & LL).
  rewrite UU, UL, LU, LL. repeat split.
Qed.

Lemma letter_case_ignored_witness :
  Keybind.generate_event_sequence root_x11 (PyBool true) (PyBool false)
    (PyBool false) (PyBool false) (PyStr "S")
  = Keybind.generate_event_sequence root_x11 (PyBool true) (PyBool false)
      (PyBool false) (PyBool false) (PyStr "save").
Proof.
  apply (letter_case_ignored (mk_widget "tkinter.Tk" "." x11)
           true false false false "s" "ave" EmptyString).
  vm_compute. repeat constructor.
Defined.

(** X4: off Aqua the replacement of "-" by "+" reaches the key too: a
    letter that starts with "-" gives the accelerator of one that starts
    with "+". *)
Theorem accelerator_minus_is_plus w cc ctrl shift ao rest rest' :
  on_aqua (PyWidget w) = false ->
  Keybind.generate_accelerator_sequence (PyWidget w) (PyBool cc)
    (PyBool ctrl) (PyBool shift) (PyBool ao) (PyStr (String "-" rest))
  = Keybind.generate_accelerator_sequence (PyWidget w) (PyBool cc)
      (PyBool ctrl) (PyBool shift) (PyBool ao) (PyStr (String "+" rest')).
Proof.
  intros H. rewrite !KeybindFacts.accelerator_shape, H. reflexivity.
Qed.

Lemma accelerator_minus_is_plus_witness :
  Keybind.generate_accelerator_sequence root_x11 (PyBool true)
    (PyBool false) (PyBool false) (PyBool false) (PyStr "-")
  = Keybind.generate_accelerator_sequence root_x11 (PyBool true)
      (PyBool false) (PyBool false) (PyBool false) (PyStr "+").
Proof.
  apply (accelerator_minus_is_plus (mk_widget "tkinter.Tk" "." x11)
           true false false false EmptyString EmptyString).
  reflexivity.
Defined.

(** X5: whenever generate_accelerator_sequence returns,
    generate_event_sequence returns too, on the same arguments; the two
    strings name the same modifiers, the accelerator in another order,
    and neither names one twice. *)
Theorem accelerator_and_event_agree
    widget ctrl_cmd ctrl_ctrl shift_shift alt_option letter a :
  Keybind.generate_accelerator_sequence
    widget ctrl_cmd ctrl_ctrl shift_shift alt_option letter = inr a ->
  let event_mods :=
    event_modifiers (on_aqua widget) (truthy ctrl_cmd) (truthy ctrl_ctrl)
      (truthy shift_shift) (truthy alt_option) in
  let accelerator_mods :=
    accelerator_modifiers (on_aqua widget) (truthy ctrl_cmd)
      (truthy ctrl_ctrl) (truthy shift_shift) (truthy alt_option) in
  exists e c,
    Keybind.generate_event_sequence
      widget ctrl_cmd ctrl_ctrl shift_shift alt_option letter = inr e /\
    e = "<" ++ dashed event_mods
            ++ event_key (truthy shift_shift) c ++ ">" /\
    a = String.concat (separator (on_aqua widget))
          (accelerator_mods ++ [accelerator_key (on_aqua widget) c]) /\
    (forall m, In m event_mods <-> In m accelerator_mods) /\
    NoDup event_mods /\ NoDup accelerator_mods.
Proof.
  intros H event_mods accelerator_mods. subst event_mods accelerator_mods.
  destruct (KeybindFacts.accelerator_returns _ _ _ _ _ _ _ H)
    as (w & cc & ctrl & shift & ao & c & rest
        & -> & -> & -> & -> & -> & ->).
  rewrite KeybindFacts.accelerator_shape in H. cbn [truthy].
  exists ("<" ++ dashed (event_modifiers (on_aqua (PyWidget w))
                           cc ctrl shift ao)
              ++ event_key shift c ++ ">"), c.
  split; [apply KeybindFacts.event_shape|]. split; [reflexivity|].
  destruct (on_aqua (PyWidget w)), cc, ctrl;
    try discriminate H; injection H as <-;
    (split; [reflexivity|]);
    destruct shift, ao; cbn;
    (split; [intros m; tauto|]);
    split; repeat constructor; cbn; intuition discriminate.
Qed.

Lemma accelerator_and_event_agree_witness :
  exists e c,
    Keybind.generate_event_sequence root_aqua (PyBool true) (PyBool true)
      (PyBool true) (PyBool true) (PyStr "n") = inr e /\
    e = "<" ++ dashed (event_modifiers true true true true true)
            ++ event_key true c ++ ">" /\
    "Command-Control-Shift-Option-N"
    = String.concat "-" (accelerator_modifiers true true true true true
                         ++ [accelerator_key true c]) /\
    (forall m, In m (event_modifiers true true true true true)
               <-> In m (accelerator_modifiers true true true true true)) /\
    NoDup (event_modifiers true true true true true) /\
    NoDup (accelerator_modifiers true true true true true).
Proof.
  apply (accelerator_and_event_agree root_aqua (PyBool true) (PyBool true)
           (PyBool true) (PyBool true) (PyStr "n")).
  reflexivity.
Defined.

(** ** Listbox *)

Module ListboxMore.
Import Listbox.

(** The toolkit of the model raises nothing but TclError. *)
Lemma getindex_raises w v e :
  Tk.getindex w v = inl e -> exists msg, e = TclError msg.
Proof.
  unfold Tk.getindex. destruct (isinstance_int v); [discriminate|].
  destruct v; try (intros [= <-]; now eexists).
  match goal with
  | |- context [match ?s with EmptyString => _ | String _ _ => _ end] =>
      repeat match goal with
             | |- context [match ?x with _ => _ end] => destruct x
             end
  end; try discriminate; intros [= <-]; now eexists.
Qed.

Lemma option_or_raises d v e :
  Tk.option_or d v = inl e -> exists msg, e = TclError msg.
Proof.
  unfold Tk.option_or, Tk.getint.
  destruct (is_None v); [discriminate|].
  destruct (isinstance_int v); [discriminate|].
  intros [= <-]. now eexists.
Qed.

Lemma selection_set_raises index w e :
  Tk.selection_set index w = inl e -> exists msg, e = TclError msg.
Proof.
  unfold Tk.selection_set.
  destruct (Tk.getindex w index) as [e'|i] eqn:E.
  - intros [= <-]. exact (getindex_raises _ _ _ E).
  - cbn [bind]. destruct (Tk.is_disabled _); [|destruct (_ && _)];
      discriminate.
Qed.

Lemma selection_set_each_raises l : forall self e,
  fst (selection_set_each l self) = inl e -> exists msg, e = TclError msg.
Proof.
  induction l as [|index l IH]; intros self e; [discriminate|].
  cbn [selection_set_each].
  destruct (Tk.selection_set index (tk self)) as [e'|w] eqn:E.
  - intros [= <-]. exact (selection_set_raises _ _ _ E).
  - apply IH.
Qed.

Lemma selection_clear_ints_raises i w e :
  Tk.selection_clear (PyInt i) Tk.END w = inl e -> False.
Proof.
  unfold Tk.selection_clear, Tk.END.
  rewrite ListboxFacts.getindex_int.
  cbn [bind ret Tk.getindex isinstance_int].
  destruct (Tk.is_disabled _); discriminate.
Qed.

(** The attributes of the wrapper that the selection loop leaves. *)
Lemma selection_set_each_frame l : forall self,
  _values (snd (selection_set_each l self)) = _values self /\
  _enabled (snd (selection_set_each l self)) = _enabled self.
Proof.
  induction l as [|index l IH]; intros self; [now split|].
  cbn [selection_set_each].
  destruct (Tk.selection_set index (tk self)); [now split|].
  exact (IH _).
Qed.

(** On a disabled widget the loop over int indices changes neither the
    selection nor the elements. *)
Lemma selection_set_each_disabled (l : list Z) : forall self,
  Tk.state_ (tk self) = Tk.DISABLED ->
  exists self',
    selection_set_each (map PyInt l) self = (inr tt, self') /\
    _values self' = _values self /\
    _enabled self' = _enabled self /\
    Tk.listvariable (tk self') = Tk.listvariable (tk self) /\
    Tk.selection (tk self') = Tk.selection (tk self).
Proof.
  induction l as [|i l IH]; intros self Hd.
  - exists self. now cbn.
  - cbn [map selection_set_each]. unfold Tk.selection_set.
    rewrite ListboxFacts.getindex_int. cbn [bind ret].
    unfold Tk.is_disabled. cbn [Tk.record Tk.state_]. rewrite Hd.
    destruct (IH (with_tk (Tk.record (Tk.call_selection_set (PyInt i))
                             (tk self)) self) Hd)
      as (self' & E & Hv & He & Hlv & Hsel).
    exists self'. now split.
Qed.

(** On an enabled widget the loop over int indices adds those that are
    indices of elements, and passes over the others. *)
Lemma selection_set_each_ints (l : list Z) : forall self,
  Tk.state_ (tk self) = Tk.NORMAL ->
  exists self',
    selection_set_each (map PyInt l) self = (inr tt, self') /\
    _values self' = _values self /\
    _enabled self' = _enabled self /\
    Tk.listvariable (tk self') = Tk.listvariable (tk self) /\
    (forall z, In z (Tk.selection (tk self'))
               <-> (In z l /\ 0 <= z < Tk.size (tk self))
                   \/ In z (Tk.selection (tk self))).
Proof.
  induction l as [|i l IH]; intros self Hn.
  - exists self. cbn. intuition.
  - cbn [map selection_set_each]. unfold Tk.selection_set.
    rewrite ListboxFacts.getindex_int. cbn [bind ret].
    unfold Tk.is_disabled. cbn [Tk.record Tk.state_]. rewrite Hn.
    change (Tk.size (Tk.record (Tk.call_selection_set (PyInt i)) (tk self)))
      with (Tk.size (tk self)).
    destruct ((0 <=? i) && (i <? Tk.size (tk self))) eqn:R.
    + apply andb_true_iff in R. destruct R as [R1%Z.leb_le R2%Z.ltb_lt].
      destruct (IH (with_tk
                      (Tk.with_selection
                         (i :: Tk.selection
                                 (Tk.record (Tk.call_selection_set (PyInt i))
                                    (tk self)))
                         (Tk.record (Tk.call_selection_set (PyInt i))
                            (tk self))) self) Hn)
        as (self' & E & Hv & He & Hlv & Hsel).
      exists self'. split; [exact E|]. split; [exact Hv|].
      split; [exact He|]. split; [exact Hlv|].
      intros z. rewrite Hsel. cbn. unfold Tk.size. cbn.
      unfold Tk.size in R2. intuition (subst; auto).
    + apply andb_false_iff in R.
      destruct (IH (with_tk (Tk.record (Tk.call_selection_set (PyInt i))
                               (tk self)) self) Hn)
        as (self' & E & Hv & He & Hlv & Hsel).
      exists self'. split; [exact E|]. split; [exact Hv|].
      split; [exact He|]. split; [exact Hlv|].
      intros z. rewrite Hsel. cbn. unfold Tk.size. cbn.
      unfold Tk.size in R.
      split; [tauto|]. intros [[[<-|Hin] Hz]|Hs]; [|tauto|tauto].
      exfalso. destruct R as [R%Z.leb_gt|R%Z.ltb_ge]; lia.
Qed.

Lemma curselection_ext w w' :
  Tk.listvariable w' = Tk.listvariable w ->
  (forall z, 0 <= z < Tk.size w ->
             (In z (Tk.selection w') <-> In z (Tk.selection w))) ->
  Tk.curselection w' = Tk.curselection w.
Proof.
  intros Hlv Hsel. unfold Tk.curselection. rewrite Hlv.
  apply filter_ext_in. intros z Hz.
  apply in_map_iff in Hz. destruct Hz as (n & <- & Hn%in_seq).
  assert (R : 0 <= Z.of_nat n < Tk.size w) by (unfold Tk.size; lia).
  specialize (Hsel _ R).
  apply eq_true_iff_eq. rewrite !existsb_exists. split.
  - intros (y & Hy & E%Z.eqb_eq). subst y.
    exists (Z.of_nat n). split; [now apply Hsel | apply Z.eqb_refl].
  - intros (y & Hy & E%Z.eqb_eq). subst y.
    exists (Z.of_nat n). split; [now apply Hsel | apply Z.eqb_refl].
Qed.

End ListboxMore.

(** X6: [Listbox.__init__] raises a TypeError exactly when one of its
    five checks fails, with the message of the first that does: it names
    the parameter and gives the type of the value passed, except that
    for select_mode it gives the type of values, and that the check of
    width is skipped when height is None.  on_select and
    on_double_click play no part. *)
Theorem init_type_error
    parent values select_mode height width on_select on_double_click :
  match init_check_failing parent values select_mode height width with
  | Some (name, type_, v) =>
      Listbox.__init__
        parent values select_mode height width on_select on_double_click
      = inl (TypeError (not_a name type_ v))
  | None =>
      forall msg,
        Listbox.__init__
          parent values select_mode height width on_select on_double_click
        <> inl (TypeError msg)
  end.
Proof.
  unfold init_check_failing, Listbox.__init__.
  destruct (negb (isinstance_widget parent)); [reflexivity|].
  destruct (negb (isinstance_list values) && negb (is_None values));
    [reflexivity|].
  destruct (negb (isinstance_str select_mode)); [reflexivity|].
  destruct (negb (isinstance_int height) && negb (is_None height));
    [reflexivity|].
  destruct (negb (isinstance_int width) && negb (is_None height));
    [reflexivity|].
  intros msg. cbn [raise_if bind ret]. unfold Tk.Listbox.
  destruct (Tk.option_or 10 height) as [e|h] eqn:Eh.
  - destruct (ListboxMore.option_or_raises _ _ _ Eh) as [m ->]. discriminate.
  - cbn [bind]. destruct (Tk.option_or 20 width) as [e|w] eqn:Ew.
    + destruct (ListboxMore.option_or_raises _ _ _ Ew) as [m ->].
      discriminate.
    + discriminate.
Qed.

(** X7: a list box cannot be given a height without a width: with an
    int for height and width left at None, [Listbox.__init__] raises
    the TypeError of the width check, whatever the other arguments that
    pass their checks. *)
Theorem init_height_without_width
    w values select_mode height on_select on_double_click :
  isinstance_list values || is_None values = true ->
  isinstance_str select_mode = true ->
  isinstance_int height = true ->
  Listbox.__init__ (PyWidget w) values select_mode height PyNone
    on_select on_double_click
  = inl (TypeError
           "width is not a int! (type passed in: <class 'NoneType'>)").
Proof.
  intros Hv Hs Hh. unfold Listbox.__init__.
  cbn [isinstance_widget negb].
  replace (negb (isinstance_list values) && negb (is_None values))
    with false by (destruct (isinstance_list values), (is_None values);
                   try reflexivity; discriminate Hv).
  rewrite Hs, Hh. cbn [negb andb raise_if bind ret].
  destruct height; try discriminate Hh; reflexivity.
Qed.

Lemma init_height_without_width_witness :
  Listbox.__init__ root_x11 (PyList [PyStr "a"]) SelectModes.Multiple
    (PyInt 5) PyNone PyNone PyNone
  = inl (TypeError
           "width is not a int! (type passed in: <class 'NoneType'>)").
Proof.
  apply (init_height_without_width (mk_widget "tkinter.Tk" "." x11));
    reflexivity.
Defined.

(** X8: the list box [Listbox.__init__] returns has the values passed
    in, each turned into a str, or none for None; it is enabled, nothing
    is selected, and it is bound to the callbacks that are not None, to
    on_select first. *)
Theorem init_state
    parent values select_mode height width on_select on_double_click self :
  Listbox.__init__
    parent values select_mode height width on_select on_double_click
  = inr self ->
  Listbox.values self = map py_str (Listbox.items values) /\
  Listbox.enabled self = true /\
  Listbox.selected self = PyTuple [] /\
  Tk.bindings (Listbox.tk self)
  = ((if is_None on_select then []
      else [("<<ListboxSelect>>", on_select)])
     ++ (if is_None on_double_click then []
         else [("<<Double-1>>", on_double_click)]))%list.
Proof.
  unfold Listbox.__init__. intros H.
  repeat (apply raise_if_inr in H; destruct H as [_ H]).
  destruct (Tk.Listbox parent height width _ select_mode) as [e|w] eqn:E;
    [discriminate|].
  cbn [bind] in H. injection H as <-.
  unfold Tk.Listbox in E.
  destruct (Tk.option_or 10 height); [discriminate|].
  destruct (Tk.option_or 20 width); [discriminate|].
  injection E as <-.
  assert (Hnil : forall l : list Z,
             filter (fun k => existsb (Z.eqb k) []) l = [])
    by (induction l; [reflexivity | assumption]).
  split.
  - cbn. destruct values; reflexivity.
  - split; [reflexivity|].
    destruct (is_None on_select), (is_None on_double_click);
      (split; [|reflexivity]);
      unfold Listbox.selected, Tk.curselection; cbn; now rewrite Hnil.
Qed.

Lemma init_state_witness :
  Listbox.values abc = map py_str [PyStr "a"; PyStr "b"; PyStr "c"] /\
  Listbox.enabled abc = true /\
  Listbox.selected abc = PyTuple [] /\
  Tk.bindings (Listbox.tk abc) = [].
Proof.
  apply (init_state root_x11 (PyList [PyStr "a"; PyStr "b"; PyStr "c"])
           SelectModes.Single PyNone PyNone PyNone PyNone abc).
  reflexivity.
Defined.

(** X9: after [Listbox.__init__] and any calls of the setters and of
    scroll_to, whether they return or raise, the elements of the widget
    are the values of the wrapper, the widget is disabled exactly when
    enabled is False, and every index in selected is an index of a
    value. *)
Theorem reachable_consistent
    parent values select_mode height width on_select on_double_click
    self calls :
  Listbox.__init__
    parent values select_mode height width on_select on_double_click
  = inr self ->
  consistent (after calls self) /\
  exists read,
    Listbox.selected (after calls self) = PyTuple (map PyInt read) /\
    Forall (valid_index (after calls self)) read.
Proof.
  intros H. apply ListboxFacts.init_consistent in H. destruct H as [H _].
  assert (K : consistent (after calls self)).
  { revert self H. induction calls as [|c calls IH]; intros self H;
      [exact H|].
    cbn [after fold_left]. apply IH.
    destruct c; cbn [outcome].
    - now apply ListboxInvariant.set_selected_consistent.
    - now apply ListboxInvariant.set_values_consistent.
    - now apply ListboxInvariant.scroll_to_consistent.
    - now apply ListboxInvariant.set_enabled_consistent. }
  split; [exact K|].
  exists (Tk.curselection (Listbox.tk (after calls self))).
  split; [reflexivity|].
  apply Forall_forall. intros z Hz.
  apply ListboxFacts.curselection_spec in Hz. destruct Hz as [Hz _].
  destruct K as [K _]. unfold valid_index, Listbox.len, Listbox.values.
  unfold Tk.size in Hz. now rewrite K in Hz.
Qed.

Lemma reachable_consistent_witness :
  consistent
    (after [Set_selected (PyTuple [PyInt 2; PyInt 1]);
            Set_values (PyList [PyInt 7; PyNone]);
            Scroll_to (PyInt 0); Set_enabled (PyBool false);
            Set_selected (PyTuple [PyStr "first"])] abc) /\
  exists read,
    Listbox.selected
      (after [Set_selected (PyTuple [PyInt 2; PyInt 1]);
              Set_values (PyList [PyInt 7; PyNone]);
              Scroll_to (PyInt 0); Set_enabled (PyBool false);
              Set_selected (PyTuple [PyStr "first"])] abc)
    = PyTuple (map PyInt read) /\
    Forall
      (valid_index
         (after [Set_selected (PyTuple [PyInt 2; PyInt 1]);
                 Set_values (PyList [PyInt 7; PyNone]);
                 Scroll_to (PyInt 0); Set_enabled (PyBool false);
                 Set_selected (PyTuple [PyStr "first"])] abc)) read.
Proof.
  apply (reachable_consistent root_x11
           (PyList [PyStr "a"; PyStr "b"; PyStr "c"])
           SelectModes.Single PyNone PyNone PyNone PyNone).
  reflexivity.
Defined.

(** X10: a setter or scroll_to that raises a TypeError or an IndexError
    has not touched the list box: these come from the checks of the
    wrapper, which are made before anything is changed. *)
Theorem check_errors_change_nothing c self msg :
  fst (outcome c self) = inl (TypeError msg)
  \/ fst (outcome c self) = inl (IndexError msg) ->
  snd (outcome c self) = self.
Proof.
  destruct c as [v|v|v|v]; cbn [outcome].
  - unfold Listbox.set_selected.
    destruct (negb (isinstance_tuple v)); [reflexivity|].
    destruct (Tk.selection_clear _ _ _) as [e|w] eqn:E; [reflexivity|].
    intros [H|H];
      destruct (ListboxMore.selection_set_each_raises _ _ _ H) as [m Hm];
      discriminate Hm.
  - unfold Listbox.set_values.
    destruct (negb (isinstance_list v)); [reflexivity|].
    intros [H|H]; discriminate H.
  - unfold Listbox.scroll_to.
    destruct (negb (isinstance_int v)); [reflexivity|].
    destruct (_ <? _); [reflexivity|].
    destruct (Tk.see v (Listbox.tk self)); [reflexivity|].
    intros [H|H]; discriminate H.
  - unfold Listbox.set_enabled.
    destruct (negb (isinstance_bool v)); [reflexivity|].
    intros [H|H]; discriminate H.
Qed.

Lemma check_errors_change_nothing_witness :
  snd (outcome (Set_selected (PyList [PyInt 0; PyInt 1])) abc) = abc /\
  snd (outcome (Scroll_to (PyInt 2)) abc) = abc.
Proof.
  split.
  - apply (check_errors_change_nothing (Set_selected (PyList [PyInt 0; PyInt 1]))
             abc
             "new_selection is not a tuple!  (type passed in: <class 'list'>)").
    left. reflexivity.
  - apply (check_errors_change_nothing (Scroll_to (PyInt 2)) abc
             "index is out of range! (index passed in: 2 length of items: 3").
    right. reflexivity.
Defined.

(** X11: on a list box that is not enabled, assigning a tuple of ints to
    selected raises nothing and changes neither selected nor values nor
    enabled. *)
Theorem disabled_ignores_selected self indices :
  consistent self ->
  Listbox.enabled self = false ->
  exists self',
    Listbox.set_selected (PyTuple (map PyInt indices)) self
    = (inr tt, self') /\
    Listbox.selected self' = Listbox.selected self /\
    Listbox.values self' = Listbox.values self /\
    Listbox.enabled self' = false.
Proof.
  intros [Hlv Hst] Hen. unfold Listbox.enabled in Hen. rewrite Hen in Hst.
  unfold Listbox.set_selected. cbn [isinstance_tuple negb Listbox.items].
  unfold Tk.selection_clear, Tk.END.
  rewrite ListboxFacts.getindex_int. unfold Tk.is_disabled.
  cbn [bind ret Tk.getindex isinstance_int Tk.record Tk.state_].
  rewrite Hst.
  destruct (ListboxMore.selection_set_each_disabled indices
              (Listbox.with_tk
                 (Tk.record (Tk.call_selection_clear (PyInt 0) (PyStr "end"))
                    (Listbox.tk self)) self) Hst)
    as (self' & E & Hv & He & Hlv' & Hsel).
  exists self'. split; [exact E|]. split.
  - unfold Listbox.selected. f_equal. f_equal.
    unfold Tk.curselection. now rewrite Hlv', Hsel.
  - split; [exact Hv|]. unfold Listbox.enabled. now rewrite He.
Qed.

Lemma disabled_ignores_selected_witness :
  exists self',
    Listbox.set_selected (PyTuple (map PyInt [1; 2]))
      (after [Set_selected (PyTuple [PyInt 0]);
              Set_enabled (PyBool false)] abc)
    = (inr tt, self') /\
    Listbox.selected self'
    = Listbox.selected (after [Set_selected (PyTuple [PyInt 0]);
                               Set_enabled (PyBool false)] abc) /\
    Listbox.values self'
    = Listbox.values (after [Set_selected (PyTuple [PyInt 0]);
                             Set_enabled (PyBool false)] abc) /\
    Listbox.enabled self' = false.
Proof.
  apply (disabled_ignores_selected
           (after [Set_selected (PyTuple [PyInt 0]);
                   Set_enabled (PyBool false)] abc) [1; 2]).
  - split; reflexivity.
  - reflexivity.
Defined.

(** X12: on an enabled list box, assigning any tuple of ints to selected
    raises nothing, also for ints that are no index of a value: those
    are passed over, and selected reads as the others, as a set. *)
Theorem selected_keeps_valid_indices self indices :
  consistent self ->
  Listbox.enabled self = true ->
  exists self' read,
    Listbox.set_selected (PyTuple (map PyInt indices)) self
    = (inr tt, self') /\
    Listbox.selected self' = PyTuple (map PyInt read) /\
    Listbox.values self' = Listbox.values self /\
    forall z, In z read <-> In z indices /\ valid_index self z.
Proof.
  intros [Hlv Hst] Hen. unfold Listbox.enabled in Hen. rewrite Hen in Hst.
  unfold Listbox.set_selected. cbn [isinstance_tuple negb Listbox.items].
  unfold Tk.selection_clear, Tk.END.
  rewrite ListboxFacts.getindex_int. unfold Tk.is_disabled.
  cbn [bind ret Tk.getindex isinstance_int Tk.record Tk.state_].
  rewrite Hst.
  set (cleared := Tk.with_selection _ _).
  assert (Hsize : Tk.size cleared = Listbox.len (Listbox.values self)).
  { unfold Tk.size, Listbox.len, Listbox.values. subst cleared.
    cbn [Tk.with_selection Tk.record Tk.listvariable]. now rewrite Hlv. }
  destruct (ListboxMore.selection_set_each_ints indices
              (Listbox.with_tk cleared self) Hst)
    as (self' & E & Hv & _ & Hlv' & Hsel).
  exists self', (Tk.curselection (Listbox.tk self')).
  split; [exact E|]. split; [reflexivity|]. split; [exact Hv|].
  intros z. rewrite ListboxFacts.curselection_spec, Hsel.
  assert (Hsize' : Tk.size (Listbox.tk self')
                   = Listbox.len (Listbox.values self)).
  { rewrite <- Hsize. unfold Tk.size. now rewrite Hlv'. }
  cbn [Listbox.with_tk Listbox.tk]. rewrite Hsize', Hsize.
  unfold valid_index. split.
  - intros [Hz [[Hin _]|Hin]]; [now split|]. exfalso.
    subst cleared. cbn in Hin. apply filter_In in Hin.
    destruct Hin as [_ Hout]. apply negb_true_iff in Hout.
    apply andb_false_iff in Hout. unfold Tk.size in Hout.
    rewrite Hlv in Hout. unfold Listbox.len, Listbox.values in Hz.
    destruct Hout as [Hout|Hout];
      [apply Z.leb_gt in Hout | apply Z.leb_gt in Hout]; lia.
  - intros [Hin Hz]. split; [exact Hz|]. left. now split.
Qed.

Lemma selected_keeps_valid_indices_witness :
  exists self' read,
    Listbox.set_selected (PyTuple (map PyInt [3; 1; -1; 1])) abc
    = (inr tt, self') /\
    Listbox.selected self' = PyTuple (map PyInt read) /\
    Listbox.values self' = Listbox.values abc /\
    forall z, In z read <-> In z [3; 1; -1; 1] /\ valid_index abc z.
Proof.
  apply (selected_keeps_valid_indices abc [3; 1; -1; 1]).
  - split; reflexivity.
  - reflexivity.
Defined.

(** X13: assigning to values the list that values reads as changes
    nothing that can be read: values, enabled and selected stay. *)
Theorem values_read_write_back self :
  consistent self ->
  exists self',
    Listbox.set_values (PyList (map PyStr (Listbox.values self))) self
    = (inr tt, self') /\
    Listbox.values self' = Listbox.values self /\
    Listbox.enabled self' = Listbox.enabled self /\
    Listbox.selected self' = Listbox.selected self.
Proof.
  intros [Hlv Hst]. unfold Listbox.set_values.
  cbn [isinstance_list negb Listbox.items].
  assert (Hmap : forall l, map py_str (map PyStr l) = l)
    by (induction l as [|x l IH]; [reflexivity | cbn; now rewrite IH]).
  rewrite Hmap. eexists. split; [reflexivity|].
  split; [reflexivity|]. split; [reflexivity|].
  unfold Listbox.selected. f_equal. f_equal. cbn [Listbox.tk].
  apply ListboxMore.curselection_ext.
  - cbn. now rewrite Hlv.
  - intros z Hz. cbn. rewrite filter_In. unfold Tk.size in Hz.
    rewrite Hlv in Hz. unfold Listbox.values. split; [tauto|].
    intros Hin. split; [exact Hin | apply Z.ltb_lt; lia].
Qed.

Lemma values_read_write_back_witness :
  exists self',
    Listbox.set_values (PyList (map PyStr (Listbox.values abc))) abc
    = (inr tt, self') /\
    Listbox.values self' = Listbox.values abc /\
    Listbox.enabled self' = Listbox.enabled abc /\
    Listbox.selected self' = Listbox.selected abc.
Proof.
  apply (values_read_write_back abc). split; reflexivity.
Defined.

(** X14: what each call leaves alone, whether it returns or raises:
    assigning to selected changes neither values nor enabled; assigning
    to values leaves enabled; scroll_to changes none of the three
    properties; assigning to enabled changes neither values nor
    selected, so that a selection outlasts disabling. *)
Theorem methods_frame v self :
  (Listbox.values (snd (Listbox.set_selected v self)) = Listbox.values self /\
   Listbox.enabled (snd (Listbox.set_selected v self))
   = Listbox.enabled self) /\
  Listbox.enabled (snd (Listbox.set_values v self)) = Listbox.enabled self /\
  (Listbox.values (snd (Listbox.scroll_to v self)) = Listbox.values self /\
   Listbox.enabled (snd (Listbox.scroll_to v self)) = Listbox.enabled self /\
   Listbox.selected (snd (Listbox.scroll_to v self))
   = Listbox.selected self) /\
  (Listbox.values (snd (Listbox.set_enabled v self)) = Listbox.values self /\
   Listbox.selected (snd (Listbox.set_enabled v self))
   = Listbox.selected self).
Proof.
  split; [|split; [|split]].
  - unfold Listbox.set_selected.
    destruct (negb (isinstance_tuple v)); [now split|].
    destruct (Tk.selection_clear _ _ _) as [e|w]; [now split|].
    exact (ListboxMore.selection_set_each_frame _ _).
  - unfold Listbox.set_values.
    now destruct (negb (isinstance_list v)).
  - unfold Listbox.scroll_to.
    destruct (negb (isinstance_int v)); [now repeat split|].
    destruct (_ <? _); [now repeat split|].
    unfold Tk.see. destruct (Tk.getindex _ _); now repeat split.
  - unfold Listbox.set_enabled.
    destruct (negb (isinstance_bool v)); now split.
Qed.
